(** * drivers/virt/vmgenid.c: the Virtual Machine Generation ID driver

    A shallow embedding of the driver and the properties of its
    change-detection step, its initialisation and its ACPI attachment path.

    The driver runs against a [world] (the guest-visible part of the
    machine: the devres heap holding [struct vmgenid_state] objects, the
    device's [driver_data], the mapped memory and the ordered log of calls
    made into other subsystems) and a [platform] (what firmware and the
    allocators answer during one probe). *)

From Stdlib Require Import ZArith List Lia Bool.
From Stdlib Require Import Strings.Byte.
From stdpp Require Import base option gmap strings list.

#[local] Set Warnings "-register-all".

Local Open Scope Z_scope.

(** ** Constants *)

(** [enum { VMGENID_SIZE = 16 };] *)
Definition VMGENID_SIZE : nat := 16.

(** Modelled from the spec: the errno values of include/uapi/asm-generic,
    which are not among the driver's sources; the driver returns them
    negated.  The spec names the failures they stand for: [ENODEV] is
    returned for [ResolutionError] and [RegistrationError], [EINVAL] for
    [MalformedDescriptor]. *)
Definition ENOMEM : Z := 12.
Definition ENODEV : Z := 19.
Definition EINVAL : Z := 22.

(** Modelled from the spec: [MAX_ERRNO] of include/linux/err.h (missing
    from the sources), the size of the window at the top of the address
    space in which a pointer encodes a failure such as [MappingError]. *)
Definition MAX_ERRNO : Z := 4095.

(** Modelled from the spec: [MEMREMAP_WB] of include/linux/io.h (missing
    from the sources), the write-back cacheable mapping the spec asks
    for. *)
Definition MEMREMAP_WB : Z := 1.

(** Modelled from the spec: the ACPICA object type tags and [AE_OK]
    (include/acpi/actypes.h, acexcep.h; missing from the sources). *)
Definition ACPI_TYPE_INTEGER : Z := 1.
Definition ACPI_TYPE_STRING : Z := 2.
Definition ACPI_TYPE_BUFFER : Z := 3.
Definition ACPI_TYPE_PACKAGE : Z := 4.
Definition ACPI_TYPE_POWER : Z := 11.
Definition ACPI_TYPE_PROCESSOR : Z := 12.
Definition ACPI_TYPE_LOCAL_REFERENCE : Z := 20.
Definition AE_OK : Z := 0.

Definition NULL : Z := 0.

(** ** Machine integers and pointers *)

Definition u64 (z : Z) : Z := z mod 2 ^ 64.

(** Two's complement reading of the low [w] bits. *)
Definition sint (w : Z) (z : Z) : Z :=
  (z + 2 ^ (w - 1)) mod 2 ^ w - 2 ^ (w - 1).

(** Modelled from the spec: [IS_ERR] and [PTR_ERR] of include/linux/err.h
    (missing from the sources).  [IS_ERR(p)] is
    [(unsigned long)p >= (unsigned long)-MAX_ERRNO]; [PTR_ERR(p)] is
    [(long)p], here narrowed to the [int] that [setup_vmgenid_state]
    returns. *)
Definition IS_ERR (p : Z) : bool := u64 (- MAX_ERRNO) <=? u64 p.
Definition PTR_ERR (p : Z) : Z := sint 32 (sint 64 p).

(** Modelled from the spec: [ACPI_FAILURE(a)] of include/acpi/acexcep.h
    (missing from the sources) is [(a)], any status other than [AE_OK]. *)
Definition ACPI_FAILURE (status : Z) : bool := negb (status =? AE_OK).

(** ** Byte buffers *)

(** [memcpy(dst, src, n)]: the first [n] bytes of [dst] are replaced by the
    first [n] bytes of [src].  Reading or writing past the end of either
    buffer has no defined behaviour in C: [None]. *)
Definition memcpy (dst src : list byte) (n : nat) : option (list byte) :=
  if (n <=? length src)%nat && (n <=? length dst)%nat
  then Some (firstn n src ++ skipn n dst)
  else None.

(** [memcmp(cs, ct, count)] as in lib/string.c: the difference of the first
    pair of differing bytes (as unsigned char), 0 when the first [count]
    bytes agree; [None] when a buffer is shorter than [count]. *)
Fixpoint memcmp (cs ct : list byte) (count : nat) : option Z :=
  match count with
  | O => Some 0
  | S count' =>
      match cs, ct with
      | x :: cs', y :: ct' =>
          let res := Z.of_N (Byte.to_N x) - Z.of_N (Byte.to_N y) in
          if res =? 0 then memcmp cs' ct' count' else Some res
      | _, _ => None
      end
  end.

(** The [n] bytes found at virtual address [p] in the mapped memory [m]. *)
Definition read_bytes (m : Z -> byte) (p : Z) (n : nat) : list byte :=
  map (fun i => m (p + Z.of_nat i)) (seq 0 n).

(** An array whose contents are indeterminate until written; every byte of
    it is overwritten before it is read. *)
Definition uninit (n : nat) : list byte := repeat x00 n.

(** ** Data *)

(** [struct vmgenid_state { u8 *next_id; u8 this_id[VMGENID_SIZE]; };] *)
Record vmgenid_state := {
  next_id : Z;
  this_id : list byte;
}.

(** [union acpi_object], one constructor per member of the union, told
    apart by the [type] tag. *)
Inductive acpi_object :=
| ACPI_Integer (value : Z)
| ACPI_String (s : string)
| ACPI_Buffer (b : list byte)
| ACPI_Package (elements : list acpi_object)
| ACPI_Reference
| ACPI_Processor
| ACPI_PowerResource.

(** [obj->type] *)
Definition acpi_type (obj : acpi_object) : Z :=
  match obj with
  | ACPI_Integer _ => ACPI_TYPE_INTEGER
  | ACPI_String _ => ACPI_TYPE_STRING
  | ACPI_Buffer _ => ACPI_TYPE_BUFFER
  | ACPI_Package _ => ACPI_TYPE_PACKAGE
  | ACPI_Reference => ACPI_TYPE_LOCAL_REFERENCE
  | ACPI_Processor => ACPI_TYPE_PROCESSOR
  | ACPI_PowerResource => ACPI_TYPE_POWER
  end.

(** [obj->package.count]; only read after the tag was checked. *)
Definition package_count (obj : acpi_object) : Z :=
  match obj with
  | ACPI_Package es => Z.of_nat (length es)
  | _ => 0
  end.

(** [obj->package.elements[i]]; only read once [count] is known to be 2. *)
Definition package_element (obj : acpi_object) (i : nat) : acpi_object :=
  match obj with
  | ACPI_Package es => nth i es ACPI_Reference
  | _ => ACPI_Reference
  end.

(** [obj->integer.value], a [u64]; only read after the tag was checked. *)
Definition integer_value (obj : acpi_object) : Z :=
  match obj with
  | ACPI_Integer v => v
  | _ => 0
  end.

(** [enum kobject_action], of which the driver uses [KOBJ_CHANGE]. *)
Inductive kobject_action := KOBJ_ADD | KOBJ_REMOVE | KOBJ_CHANGE.

(** Calls made into the driver's collaborators, with their arguments (and,
    for the firmware calls, the status they answered). *)
Inductive event :=
| EvAddDeviceRandomness (buf : list byte) (len : nat)
| EvAddVmforkRandomness (buf : list byte) (len : nat)
| EvKobjectUeventEnv (action : kobject_action) (envp : list string)
| EvAcpiEvaluateObject (method : string) (status : Z)
| EvAcpiException (status : Z) (msg : string)
| EvDevmMemremap (phys_addr : Z) (size : nat) (flags : Z)
| EvAcpiInstallNotifyHandler (status : Z)
| EvDevErr (msg : string)
| EvAcpiFree
| EvDevmKmalloc (p : Z)
| EvDevmKfree (p : Z).

Record world := {
  heap : gmap Z vmgenid_state;
  driver_data : Z;
  mem : Z -> byte;
  log : list event;
}.

(** What firmware and the allocators answer during one probe. *)
Record platform := {
  CONFIG_ACPI : bool;
  devm_kmalloc_ret : Z;
  kmalloc_junk_next_id : Z;
  kmalloc_junk_this_id : nat -> byte;
  acpi_evaluate_ADDR : Z * option acpi_object;
  devm_memremap_ret : Z -> Z;
  acpi_install_notify_handler_ret : Z;
}.

(** ** Updates of the world *)

Definition logged (es : list event) (w : world) : world :=
  {| heap := heap w; driver_data := driver_data w; mem := mem w;
     log := log w ++ es |}.

Definition with_state (p : Z) (st : vmgenid_state) (w : world) : world :=
  {| heap := <[p := st]> (heap w); driver_data := driver_data w;
     mem := mem w; log := log w |}.

Definition with_driver_data (p : Z) (w : world) : world :=
  {| heap := heap w; driver_data := p; mem := mem w; log := log w |}.

Definition without_state (p : Z) (w : world) : world :=
  {| heap := delete p (heap w); driver_data := driver_data w;
     mem := mem w; log := log w |}.

(** ** The driver's monad: state over [world], [None] for a fault *)

Definition M (A : Type) : Type := world -> option (A * world).

#[global] Instance M_ret : MRet M := fun A a w => Some (a, w).
#[global] Instance M_bind : MBind M := fun A B f m w =>
  match m w with
  | Some (a, w') => f a w'
  | None => None
  end.

Definition lift {A} (o : option A) : M A := fun w =>
  match o with
  | Some a => Some (a, w)
  | None => None
  end.

(** A call into a collaborator, appended to the log. *)
Definition emit (e : event) : M unit := fun w => Some (tt, logged [e] w).

Definition get_driver_data : M Z := fun w => Some (driver_data w, w).

Definition set_driver_data (p : Z) : M unit := fun w =>
  Some (tt, with_driver_data p w).

(** [*state] *)
Definition load_state (p : Z) : M vmgenid_state := fun w =>
  match heap w !! p with
  | Some st => Some (st, w)
  | None => None
  end.

(** [*state = st], for an object that is live. *)
Definition store_state (p : Z) (st : vmgenid_state) : M unit := fun w =>
  match heap w !! p with
  | Some _ => Some (tt, with_state p st w)
  | None => None
  end.

(** The [n] bytes a pointer into the mapped region designates. *)
Definition read_region (p : Z) (n : nat) : M (list byte) := fun w =>
  Some (read_bytes (mem w) p n, w).

(** ** The generation-ID monitor *)

(** The driver's [vmgenid_notify] returns [void]; the value here records
    which of its two exits was taken: the early [return] of line 34
    ([Unchanged]) or the end of the body ([Changed]). *)
Inductive ChangeOutcome := Unchanged | Changed.

Definition vmgenid_notify : M ChangeOutcome :=
  state ← get_driver_data;
  let envp := ["NEW_VMGENID=1"%string] in
  st ← load_state state;
  old_id ← lift (memcpy (uninit VMGENID_SIZE) (this_id st) VMGENID_SIZE);
  next ← read_region (next_id st) VMGENID_SIZE;
  new_id ← lift (memcpy (this_id st) next VMGENID_SIZE);
  store_state state {| next_id := next_id st; this_id := new_id |};;
  c ← lift (memcmp old_id new_id VMGENID_SIZE);
  if c =? 0 then mret Unchanged
  else
    emit (EvAddVmforkRandomness new_id VMGENID_SIZE);;
    emit (EvKobjectUeventEnv KOBJ_CHANGE envp);;
    mret Changed.

Definition vmgenid_acpi_handler : M ChangeOutcome := vmgenid_notify.

Definition setup_vmgenid_state (state : Z) (next_id' : Z) : M Z :=
  if IS_ERR next_id' then mret (PTR_ERR next_id')
  else
    st ← load_state state;
    store_state state {| next_id := next_id'; this_id := this_id st |};;
    next ← read_region next_id' VMGENID_SIZE;
    new_id ← lift (memcpy (this_id st) next VMGENID_SIZE);
    store_state state {| next_id := next_id'; this_id := new_id |};;
    emit (EvAddDeviceRandomness new_id VMGENID_SIZE);;
    mret 0.

(** ** The address resolver and the attachment path *)

(** The shape test of lines 76-78, [||] evaluated left to right. *)
Definition addr_malformed (parsed : option acpi_object) : bool :=
  match parsed with
  | None => true
  | Some obj =>
      negb (acpi_type obj =? ACPI_TYPE_PACKAGE)
      || negb (package_count obj =? 2)
      || negb (acpi_type (package_element obj 0) =? ACPI_TYPE_INTEGER)
      || negb (acpi_type (package_element obj 1) =? ACPI_TYPE_INTEGER)
  end.

(** Lines 83-84, on [u64] operands, with a 64-bit [phys_addr_t]. *)
Definition phys_addr_of (lo hi : Z) : Z :=
  Z.lor (u64 (Z.shiftl lo 0)) (u64 (Z.shiftl hi 32)).

Definition acpi_evaluate_object (pf : platform) (method : string)
  : M (Z * option acpi_object) :=
  emit (EvAcpiEvaluateObject method (fst (acpi_evaluate_ADDR pf)));;
  mret (acpi_evaluate_ADDR pf).

Definition devm_memremap (pf : platform) (phys : Z) (size : nat) (flags : Z)
  : M Z :=
  emit (EvDevmMemremap phys size flags);;
  mret (devm_memremap_ret pf phys).

Definition acpi_install_notify_handler (pf : platform) : M Z :=
  emit (EvAcpiInstallNotifyHandler (acpi_install_notify_handler_ret pf));;
  mret (acpi_install_notify_handler_ret pf).

(** The body between line 76 and the label [out]; its value is [ret]. *)
Definition vmgenid_add_acpi_body (pf : platform) (state : Z)
    (parsed : option acpi_object) : M Z :=
  if addr_malformed parsed then mret (- EINVAL)
  else
    let obj := default ACPI_Reference parsed in
    let phys_addr :=
      phys_addr_of (integer_value (package_element obj 0))
                   (integer_value (package_element obj 1)) in
    virt_addr ← devm_memremap pf phys_addr VMGENID_SIZE MEMREMAP_WB;
    ret ← setup_vmgenid_state state virt_addr;
    if negb (ret =? 0) then mret ret
    else
      set_driver_data state;;
      status ← acpi_install_notify_handler pf;
      if ACPI_FAILURE status then
        emit (EvDevErr "Failed to install acpi notify handler");;
        set_driver_data NULL;;
        mret (- ENODEV)
      else mret 0.

Definition vmgenid_add_acpi (pf : platform) (state : Z) : M Z :=
  if CONFIG_ACPI pf then
    '(status, parsed) ← acpi_evaluate_object pf "ADDR";
    if ACPI_FAILURE status then
      emit (EvAcpiException status "Evaluating ADDR");;
      mret (- ENODEV)
    else
      ret ← vmgenid_add_acpi_body pf state parsed;
      emit EvAcpiFree;;
      mret ret
  else mret (- EINVAL).

(** The object [devm_kmalloc] hands out. *)
Definition junk_state (pf : platform) : vmgenid_state :=
  {| next_id := kmalloc_junk_next_id pf;
     this_id := map (kmalloc_junk_this_id pf) (seq 0 VMGENID_SIZE) |}.

(** [devm_kmalloc]: the platform's answer; a non-null answer is a new
    object with indeterminate contents. *)
Definition devm_kmalloc (pf : platform) : M Z := fun w =>
  let p := devm_kmalloc_ret pf in
  Some (p, logged [EvDevmKmalloc p]
                  (if p =? NULL then w else with_state p (junk_state pf) w)).

Definition devm_kfree (p : Z) : M unit := fun w =>
  Some (tt, logged [EvDevmKfree p] (without_state p w)).

Definition vmgenid_add (pf : platform) : M Z :=
  state ← devm_kmalloc pf;
  if state =? NULL then mret (- ENOMEM)
  else
    ret ← vmgenid_add_acpi pf state;
    (if negb (ret =? 0) then devm_kfree state else mret tt);;
    mret ret.

(** ** The host side *)

(** The region a monitor state looks at, as the guest reads it now. *)
Definition region (w : world) (st : vmgenid_state) : list byte :=
  read_bytes (mem w) (next_id st) VMGENID_SIZE.

(** The host may rewrite mapped memory at any time: [m] is what the guest
    sees from then on. *)
Definition host_rewrite (m : Z -> byte) (w : world) : world :=
  {| heap := heap w; driver_data := driver_data w; mem := m; log := log w |}.

(** One asynchronous notification, delivered after the host left the mapped
    memory as [m]. *)
Definition signal (m : Z -> byte) : M ChangeOutcome := fun w =>
  vmgenid_acpi_handler (host_rewrite m w).

(** Notifications are delivered one at a time, in order. *)
Fixpoint signals (ms : list (Z -> byte)) : M (list ChangeOutcome) :=
  match ms with
  | [] => mret []
  | m :: ms' =>
      o ← signal m;
      os ← signals ms';
      mret (o :: os)
  end.

(** The monitor state the device currently points at. *)
Definition monitor (w : world) : option vmgenid_state :=
  heap w !! driver_data w.

(** The side effects of one detected change. *)
Definition change_events (id : list byte) : list event :=
  [EvAddVmforkRandomness id VMGENID_SIZE;
   EvKobjectUeventEnv KOBJ_CHANGE ["NEW_VMGENID=1"%string]].

(** ** Summaries of the attachment path *)

(** The monitor state [setup_vmgenid_state] leaves behind for a region
    mapped at [p]. *)
Definition initial_state (w : world) (p : Z) : vmgenid_state :=
  {| next_id := p; this_id := read_bytes (mem w) p VMGENID_SIZE |}.

(** ** What the specification talks about *)

(** The descriptor the firmware method is expected to return: a package of
    exactly two integers. *)
Definition two_integers (parsed : option acpi_object) : bool :=
  match parsed with
  | Some (ACPI_Package [ACPI_Integer _; ACPI_Integer _]) => true
  | _ => false
  end.

(** The address as the specification words it: the low element masked to
    bits 0-31, the high element shifted into bits 32-63. *)
Definition claimed_phys_addr (lo hi : Z) : Z :=
  Z.lor (Z.land lo 0xFFFFFFFF) (u64 (Z.shiftl hi 32)).

(** The physical address the descriptor designates for the driver. *)
Definition descriptor_phys_addr (parsed : option acpi_object) : Z :=
  match parsed with
  | Some (ACPI_Package [ACPI_Integer lo; ACPI_Integer hi]) =>
      phys_addr_of lo hi
  | _ => 0
  end.

(** The attachment-time failures of the specification's section 7. *)
Inductive attach_error :=
| ResolutionError | MalformedDescriptor | MappingError | RegistrationError.

(** Which of them, if any, the platform's answers lead to; the steps are
    taken in the order evaluate, check shape, map, register. *)
Definition attach_error_of (pf : platform) : option attach_error :=
  let '(status, parsed) := acpi_evaluate_ADDR pf in
  if ACPI_FAILURE status then Some ResolutionError
  else if negb (two_integers parsed) then Some MalformedDescriptor
  else if IS_ERR (devm_memremap_ret pf (descriptor_phys_addr parsed))
  then Some MappingError
  else if ACPI_FAILURE (acpi_install_notify_handler_ret pf)
  then Some RegistrationError
  else None.

(** What one run of [vmgenid_add_acpi] amounts to on a platform with ACPI,
    by the failure it meets: the value returned, the calls made, the heap
    and the [driver_data] it leaves. *)
Definition mapped_at (pf : platform) : Z :=
  devm_memremap_ret pf (descriptor_phys_addr (snd (acpi_evaluate_ADDR pf))).

Definition attach_ret (pf : platform) : Z :=
  match attach_error_of pf with
  | Some ResolutionError => - ENODEV
  | Some MalformedDescriptor => - EINVAL
  | Some MappingError => PTR_ERR (mapped_at pf)
  | Some RegistrationError => - ENODEV
  | None => 0
  end.

Definition attach_events (pf : platform) (w : world) : list event :=
  let status := fst (acpi_evaluate_ADDR pf) in
  let phys := descriptor_phys_addr (snd (acpi_evaluate_ADDR pf)) in
  let evaluate := EvAcpiEvaluateObject "ADDR" status in
  let remap := EvDevmMemremap phys VMGENID_SIZE MEMREMAP_WB in
  let seed :=
    EvAddDeviceRandomness (read_bytes (mem w) (mapped_at pf) VMGENID_SIZE)
                          VMGENID_SIZE in
  let install :=
    EvAcpiInstallNotifyHandler (acpi_install_notify_handler_ret pf) in
  match attach_error_of pf with
  | Some ResolutionError =>
      [evaluate; EvAcpiException status "Evaluating ADDR"]
  | Some MalformedDescriptor => [evaluate; EvAcpiFree]
  | Some MappingError => [evaluate; remap; EvAcpiFree]
  | Some RegistrationError =>
      [evaluate; remap; seed; install;
       EvDevErr "Failed to install acpi notify handler"; EvAcpiFree]
  | None => [evaluate; remap; seed; install; EvAcpiFree]
  end.

Definition attach_heap (pf : platform) (state : Z) (w : world)
  : gmap Z vmgenid_state :=
  match attach_error_of pf with
  | Some RegistrationError | None =>
      <[state := initial_state w (mapped_at pf)]> (heap w)
  | _ => heap w
  end.

Definition attach_driver_data (pf : platform) (state : Z) (w : world) : Z :=
  match attach_error_of pf with
  | None => state
  | Some RegistrationError => NULL
  | _ => driver_data w
  end.

Definition attach_world (pf : platform) (state : Z) (w : world) : world :=
  {| heap := attach_heap pf state w;
     driver_data := attach_driver_data pf state w;
     mem := mem w;
     log := log w ++ attach_events pf w |}.

(** The world [vmgenid_add] hands to [vmgenid_add_acpi]: the new object is
    live and holds whatever the allocator left in it. *)
Definition allocated (pf : platform) (w : world) : world :=
  logged [EvDevmKmalloc (devm_kmalloc_ret pf)]
         (with_state (devm_kmalloc_ret pf) (junk_state pf) w).

(** The world after the [devm_kfree] of a failed attachment. *)
Definition released (pf : platform) (w : world) : world :=
  logged [EvDevmKfree (devm_kmalloc_ret pf)]
         (without_state (devm_kmalloc_ret pf) w).

(** Diagnostic output: [ACPI_EXCEPTION] and [dev_err]. *)
Definition is_diagnostic (e : event) : bool :=
  match e with
  | EvAcpiException _ _ | EvDevErr _ => true
  | _ => false
  end.

Definition diagnostics (l : list event) : list event :=
  List.filter is_diagnostic l.

(** The mappings requested from [devm_memremap]. *)
Definition is_mapping (e : event) : bool :=
  match e with
  | EvDevmMemremap _ _ _ => true
  | _ => false
  end.

Definition mappings (l : list event) : list event :=
  List.filter is_mapping l.

(** The bytes an entropy call hands over. *)
Definition entropy_payload (e : event) : option (list byte) :=
  match e with
  | EvAddDeviceRandomness buf len | EvAddVmforkRandomness buf len =>
      Some (firstn len buf)
  | _ => None
  end.

(** The bytes of the most recent entropy call in a log (oldest first). *)
Fixpoint last_injected (l : list event) : option (list byte) :=
  match l with
  | [] => None
  | e :: l' =>
      match last_injected l' with
      | Some id => Some id
      | None => entropy_payload e
      end
  end.

(** The snapshot of the attached monitor is what was last injected. *)
Definition tracks_injection (w : world) : Prop :=
  exists st, monitor w = Some st /\
             length (this_id st) = VMGENID_SIZE /\
             last_injected (log w) = Some (this_id st).

(** ** Counting calls, and what a run of notifications should give *)

#[global] Instance byte_eq_decision : EqDecision byte := byte_eq_dec.

Definition is_seed (e : event) : bool :=
  match e with EvAddDeviceRandomness _ _ => true | _ => false end.

Definition is_reseed (e : event) : bool :=
  match e with EvAddVmforkRandomness _ _ => true | _ => false end.

Definition is_uevent (e : event) : bool :=
  match e with EvKobjectUeventEnv _ _ => true | _ => false end.

Definition is_acpi_free (e : event) : bool :=
  match e with EvAcpiFree => true | _ => false end.

Definition is_install (e : event) : bool :=
  match e with EvAcpiInstallNotifyHandler _ => true | _ => false end.

Definition count_events (f : event -> bool) (l : list event) : nat :=
  length (List.filter f l).

Definition count_changed (os : list ChangeOutcome) : nat :=
  length (List.filter (fun o => match o with Changed => true | _ => false end)
                      os).

(** What the guest reads at [p] in each of the memories [ms]. *)
Definition region_reads (p : Z) (ms : list (Z -> byte)) : list (list byte) :=
  map (fun m => read_bytes m p VMGENID_SIZE) ms.

(** Each value read is compared with the one read before it, the first
    with the snapshot [prev]. *)
Fixpoint expected_outcomes (prev : list byte) (reads : list (list byte))
  : list ChangeOutcome :=
  match reads with
  | [] => []
  | id :: reads' =>
      (if bool_decide (id = prev) then Unchanged else Changed)
      :: expected_outcomes id reads'
  end.

Fixpoint expected_events (prev : list byte) (reads : list (list byte))
  : list event :=
  match reads with
  | [] => []
  | id :: reads' =>
      (if bool_decide (id = prev) then [] else change_events id)
      ++ expected_events id reads'
  end.

(** The same platform, with other leftovers in the memory [devm_kmalloc]
    hands out. *)
Definition with_junk (n : Z) (j : nat -> byte) (pf : platform) : platform :=
  {| CONFIG_ACPI := CONFIG_ACPI pf;
     devm_kmalloc_ret := devm_kmalloc_ret pf;
     kmalloc_junk_next_id := n;
     kmalloc_junk_this_id := j;
     acpi_evaluate_ADDR := acpi_evaluate_ADDR pf;
     devm_memremap_ret := devm_memremap_ret pf;
     acpi_install_notify_handler_ret := acpi_install_notify_handler_ret pf |}.

(** ** Demonstration inputs *)

Definition demo_zero : list byte := repeat x00 VMGENID_SIZE.
Definition demo_pattern : list byte := repeat xa5 VMGENID_SIZE.
Definition demo_state : vmgenid_state :=
  {| next_id := 8192; this_id := demo_zero |}.
Definition demo_world : world :=
  {| heap := {[ 4096 := demo_state ]}; driver_data := 4096;
     mem := fun _ => x00; log := [] |}.
Definition demo_mem_zero : Z -> byte := fun _ => x00.
Definition demo_mem_pattern : Z -> byte := fun _ => xa5.

(** A device before probe, with nothing allocated and all-zero memory. *)
Definition demo_boot : world :=
  {| heap := ∅; driver_data := NULL; mem := fun _ => x00; log := [] |}.

Definition demo_platform (eval : Z * option acpi_object)
    (remap : Z -> Z) (install : Z) : platform :=
  {| CONFIG_ACPI := true;
     devm_kmalloc_ret := 4096;
     kmalloc_junk_next_id := 0;
     kmalloc_junk_this_id := fun _ => xff;
     acpi_evaluate_ADDR := eval;
     devm_memremap_ret := remap;
     acpi_install_notify_handler_ret := install |}.

Definition demo_descriptor : option acpi_object :=
  Some (ACPI_Package [ACPI_Integer 0x1000; ACPI_Integer 0x2]).

(** Firmware has no usable ADDR method (status [AE_NOT_FOUND]). *)
Definition demo_pf_noaddr : platform :=
  demo_platform (5, None) (fun _ => 8192) AE_OK.

(** Firmware answers a single-element package. *)
Definition demo_pf_single : platform :=
  demo_platform (AE_OK, Some (ACPI_Package [ACPI_Integer 0x1000]))
                (fun _ => 8192) AE_OK.

(** The mapping fails with [-ENOMEM]. *)
Definition demo_pf_nomap : platform :=
  demo_platform (AE_OK, demo_descriptor) (fun _ => u64 (- ENOMEM)) AE_OK.

(** The notify handler cannot be installed (status [AE_ALREADY_EXISTS]). *)
Definition demo_pf_noreg : platform :=
  demo_platform (AE_OK, demo_descriptor) (fun _ => 8192) 7.

(** Everything succeeds. *)
Definition demo_pf_ok : platform :=
  demo_platform (AE_OK, demo_descriptor) (fun _ => 8192) AE_OK.

(** A kernel built without ACPI, on firmware that would answer well. *)
Definition demo_pf_noacpi : platform :=
  {| CONFIG_ACPI := false;
     devm_kmalloc_ret := 4096;
     kmalloc_junk_next_id := 0;
     kmalloc_junk_this_id := fun _ => xff;
     acpi_evaluate_ADDR := (AE_OK, demo_descriptor);
     devm_memremap_ret := fun _ => 8192;
     acpi_install_notify_handler_ret := AE_OK |}.

(** Firmware puts bit 32 of the address in the low element. *)
Definition demo_pf_wide_low : platform :=
  demo_platform
    (AE_OK, Some (ACPI_Package [ACPI_Integer 0x100000000; ACPI_Integer 0]))
    (fun _ => 8192) AE_OK.

(** The world [vmgenid_add demo_pf_noreg] leaves when run on [demo_boot]. *)
Definition demo_unregistered : world :=
  logged [EvDevmKmalloc 4096;
          EvAcpiEvaluateObject "ADDR" 0;
          EvDevmMemremap 0x200001000 VMGENID_SIZE MEMREMAP_WB;
          EvAddDeviceRandomness demo_zero VMGENID_SIZE;
          EvAcpiInstallNotifyHandler 7;
          EvDevErr "Failed to install acpi notify handler";
          EvAcpiFree;
          EvDevmKfree 4096] demo_boot.

(** The world [vmgenid_add demo_pf_ok] leaves when run on [demo_boot]. *)
Definition demo_attached : world :=
  {| heap := {[ 4096 := {| next_id := 8192; this_id := demo_zero |} ]};
     driver_data := 4096;
     mem := fun _ => x00;
     log := [EvDevmKmalloc 4096;
             EvAcpiEvaluateObject "ADDR" 0;
             EvDevmMemremap 0x200001000 VMGENID_SIZE MEMREMAP_WB;
             EvAddDeviceRandomness demo_zero VMGENID_SIZE;
             EvAcpiInstallNotifyHandler 0;
             EvAcpiFree] |}.


(** * Properties *)

(** Unfolding of the monad's plumbing and of the world updates. *)
Ltac exec :=
  unfold mbind, M_bind, mret, M_ret, emit, set_driver_data, get_driver_data,
    read_region, logged, with_state, with_driver_data, without_state;
  cbn [heap driver_data mem log fst snd lift negb].

(** ** Buffers *)

Lemma length_read_bytes m p n : length (read_bytes m p n) = n.
Proof. unfold read_bytes. by rewrite length_map, length_seq. Qed.

Lemma memcpy_whole (dst src : list byte) n :
  length dst = n -> length src = n -> memcpy dst src n = Some src.
Proof.
  intros Hd Hs. unfold memcpy.
  rewrite Hd, Hs, Nat.leb_refl. cbn.
  rewrite <- Hs at 1. rewrite firstn_all.
  rewrite <- Hd, skipn_all. by rewrite app_nil_r.
Qed.

Lemma byte_diff_zero (x y : byte) :
  Z.of_N (Byte.to_N x) - Z.of_N (Byte.to_N y) = 0 <-> x = y.
Proof.
  split; [|intros ->; lia].
  intros H.
  assert (E : Byte.to_N x = Byte.to_N y) by lia.
  apply (f_equal Byte.of_N) in E.
  rewrite !Byte.of_to_N in E. congruence.
Qed.

Lemma memcmp_whole (cs ct : list byte) n :
  length cs = n -> length ct = n ->
  exists c, memcmp cs ct n = Some c /\ (c = 0 <-> cs = ct).
Proof.
  revert cs ct. induction n as [|n IH]; intros cs ct Hc Ht.
  - destruct cs, ct; try discriminate. by exists 0.
  - destruct cs as [|x cs], ct as [|y ct]; try discriminate.
    injection Hc as Hc. injection Ht as Ht. cbn.
    destruct (Z.eqb_spec (Z.of_N (Byte.to_N x) - Z.of_N (Byte.to_N y)) 0)
      as [E|E].
    + apply byte_diff_zero in E as ->.
      destruct (IH cs ct Hc Ht) as (c & -> & Hiff).
      exists c. split; [done|]. rewrite Hiff. split; congruence.
    + eexists. split; [done|]. split; [done|].
      intros [= -> _]. lia.
Qed.

(** ** One notification, whatever the region holds *)

Lemma vmgenid_notify_run w st :
  monitor w = Some st ->
  length (this_id st) = VMGENID_SIZE ->
  exists c,
    memcmp (this_id st) (region w st) VMGENID_SIZE = Some c /\
    (c = 0 <-> this_id st = region w st) /\
    vmgenid_notify w =
      Some (if c =? 0 then Unchanged else Changed,
            {| heap := <[driver_data w :=
                           {| next_id := next_id st;
                              this_id := region w st |}]> (heap w);
               driver_data := driver_data w;
               mem := mem w;
               log := log w ++
                      (if c =? 0 then [] else change_events (region w st)) |}).
Proof.
  intros Hm Hlen.
  destruct (memcmp_whole (this_id st) (region w st) VMGENID_SIZE)
    as (c & Hc & Hiff); [done | apply length_read_bytes |].
  exists c. split; [done|]. split; [done|].
  unfold vmgenid_notify, mbind, M_bind, get_driver_data, load_state.
  unfold monitor in Hm. rewrite Hm.
  rewrite (memcpy_whole (uninit VMGENID_SIZE) (this_id st)); [|done..].
  cbn [lift read_region].
  fold (region w st).
  rewrite (memcpy_whole (this_id st) (region w st));
    [|done | apply length_read_bytes].
  cbn [lift]. unfold store_state. rewrite Hm. cbn [heap log mem driver_data].
  rewrite Hc. cbn [lift].
  destruct (c =? 0); exec.
  - by rewrite app_nil_r.
  - by rewrite <- app_assoc.
Qed.

Lemma host_rewrite_monitor m w : monitor (host_rewrite m w) = monitor w.
Proof. done. Qed.

Lemma signal_run m w st :
  monitor w = Some st ->
  length (this_id st) = VMGENID_SIZE ->
  let id := read_bytes m (next_id st) VMGENID_SIZE in
  exists c,
    (c = 0 <-> this_id st = id) /\
    signal m w =
      Some (if c =? 0 then Unchanged else Changed,
            {| heap := <[driver_data w :=
                           {| next_id := next_id st; this_id := id |}]>
                       (heap w);
               driver_data := driver_data w;
               mem := m;
               log := log w ++ (if c =? 0 then [] else change_events id) |}).
Proof.
  intros Hm Hlen id.
  destruct (vmgenid_notify_run (host_rewrite m w) st Hm Hlen)
    as (c & _ & Hiff & Hrun).
  exists c. split; [exact Hiff|]. exact Hrun.
Qed.

(** A notification that finds the region equal to the snapshot changes
    nothing but the memory the host left behind. *)
Lemma signal_same m w st :
  monitor w = Some st ->
  read_bytes m (next_id st) VMGENID_SIZE = this_id st ->
  signal m w = Some (Unchanged, host_rewrite m w).
Proof.
  intros Hm Heq.
  assert (Hlen : length (this_id st) = VMGENID_SIZE)
    by (rewrite <- Heq; apply length_read_bytes).
  destruct (signal_run m w st Hm Hlen) as (c & Hiff & ->).
  assert (c = 0) as -> by (apply Hiff; done).
  rewrite Z.eqb_refl, app_nil_r, Heq. unfold host_rewrite.
  do 3 f_equal. apply insert_id. destruct st; exact Hm.
Qed.

Lemma signal_differs m w st :
  monitor w = Some st ->
  length (this_id st) = VMGENID_SIZE ->
  read_bytes m (next_id st) VMGENID_SIZE <> this_id st ->
  let id := read_bytes m (next_id st) VMGENID_SIZE in
  signal m w =
    Some (Changed,
          {| heap := <[driver_data w :=
                         {| next_id := next_id st; this_id := id |}]> (heap w);
             driver_data := driver_data w;
             mem := m;
             log := log w ++ change_events id |}).
Proof.
  intros Hm Hlen Hne id.
  destruct (signal_run m w st Hm Hlen) as (c & Hiff & ->).
  destruct (Z.eqb_spec c 0) as [E|E]; [|done].
  exfalso. apply Hne. symmetry. by apply Hiff.
Qed.

Lemma signals_same ms : forall w st,
  monitor w = Some st ->
  Forall (fun m => read_bytes m (next_id st) VMGENID_SIZE = this_id st) ms ->
  exists w',
    signals ms w = Some (repeat Unchanged (length ms), w') /\
    heap w' = heap w /\ driver_data w' = driver_data w /\ log w' = log w.
Proof.
  induction ms as [|m ms IH]; intros w st Hm Hall.
  - by exists w.
  - inversion Hall as [|? ? Hhd Htl]; subst.
    destruct (IH (host_rewrite m w) st Hm Htl) as (w' & Hrun & Hh & Hd & Hl).
    exists w'. split; [|done].
    cbn [signals]. unfold mbind, M_bind.
    rewrite (signal_same m w st Hm Hhd), Hrun. done.
Qed.


(** ** Initialisation *)

Lemma IS_ERR_PTR_ERR p : IS_ERR p = true -> - MAX_ERRNO <= PTR_ERR p < 0.
Proof.
  unfold IS_ERR, PTR_ERR, sint, u64, MAX_ERRNO.
  change (2 ^ 64) with 18446744073709551616.
  change (2 ^ (64 - 1)) with 9223372036854775808.
  change (2 ^ 32) with 4294967296.
  change (2 ^ (32 - 1)) with 2147483648.
  intros H%Z.leb_le. revert H.
  Z.div_mod_to_equations. lia.
Qed.

Lemma setup_vmgenid_state_err state p w :
  IS_ERR p = true -> setup_vmgenid_state state p w = Some (PTR_ERR p, w).
Proof. intros H. unfold setup_vmgenid_state. by rewrite H. Qed.

Lemma setup_vmgenid_state_ok state p w st :
  heap w !! state = Some st ->
  length (this_id st) = VMGENID_SIZE ->
  IS_ERR p = false ->
  setup_vmgenid_state state p w =
    Some (0, logged [EvAddDeviceRandomness
                       (read_bytes (mem w) p VMGENID_SIZE) VMGENID_SIZE]
                    (with_state state (initial_state w p) w)).
Proof.
  intros Hst Hlen Hp. unfold setup_vmgenid_state. rewrite Hp.
  unfold load_state, store_state. exec. rewrite !Hst. exec.
  rewrite (memcpy_whole (this_id st)); [|done | apply length_read_bytes].
  exec. rewrite lookup_insert_eq, insert_insert_eq. done.
Qed.

(** ** The attachment path *)

Lemma addr_malformed_two_integers parsed :
  addr_malformed parsed = negb (two_integers parsed).
Proof.
  destruct parsed as [[v|?|?|es| | | ]|]; try done.
  destruct es as [|e0 [|e1 [|e2 es]]]; try done.
  - by destruct e0.
  - destruct e0, e1; done.
  - unfold addr_malformed, package_count.
    replace (Z.of_nat (length (e0 :: e1 :: e2 :: es)) =? 2) with false.
    + by destruct e0, e1.
    + symmetry. apply Z.eqb_neq. cbn [length]. lia.
Qed.

Lemma two_integers_inv parsed :
  two_integers parsed = true ->
  exists lo hi, parsed = Some (ACPI_Package [ACPI_Integer lo; ACPI_Integer hi]).
Proof.
  destruct parsed as [[v|?|?|es| | | ]|]; try done.
  destruct es as [|[lo|?|?|?| | | ] [|[hi|?|?|?| | | ] [|e2 es]]]; try done.
  intros _. by exists lo, hi.
Qed.

Lemma vmgenid_add_acpi_run pf state w st :
  CONFIG_ACPI pf = true ->
  heap w !! state = Some st ->
  length (this_id st) = VMGENID_SIZE ->
  vmgenid_add_acpi pf state w = Some (attach_ret pf, attach_world pf state w).
Proof.
  intros Hcfg Hst Hlen.
  unfold vmgenid_add_acpi, attach_world, attach_ret, attach_events,
    attach_heap, attach_driver_data, attach_error_of, mapped_at.
  rewrite Hcfg. unfold acpi_evaluate_object. exec.
  destruct (acpi_evaluate_ADDR pf) as [status parsed]. exec.
  destruct (ACPI_FAILURE status) eqn:Hfail.
  { exec. by rewrite <- app_assoc. }
  unfold vmgenid_add_acpi_body. rewrite addr_malformed_two_integers.
  destruct (two_integers parsed) eqn:Hshape; cbn [negb].
  2:{ exec. by rewrite <- app_assoc. }
  destruct (two_integers_inv parsed Hshape) as (lo & hi & ->).
  cbn [default from_option id package_element nth integer_value
       descriptor_phys_addr].
  unfold devm_memremap. exec.
  generalize (devm_memremap_ret pf (phys_addr_of lo hi)). intros v.
  destruct (IS_ERR v) eqn:Herr.
  { rewrite setup_vmgenid_state_err by done.
    pose proof (IS_ERR_PTR_ERR v Herr) as Hrange.
    destruct (Z.eqb_spec (PTR_ERR v) 0) as [E|E]; [lia|].
    exec. by rewrite <- !app_assoc. }
  erewrite setup_vmgenid_state_ok; [|exact Hst|exact Hlen|exact Herr].
  cbn [Z.eqb negb]. unfold acpi_install_notify_handler, initial_state. exec.
  destruct (ACPI_FAILURE (acpi_install_notify_handler_ret pf)); exec;
    by rewrite <- !app_assoc.
Qed.

Lemma attach_ret_zero pf : attach_ret pf = 0 <-> attach_error_of pf = None.
Proof.
  unfold attach_ret. destruct (attach_error_of pf) as [[]|] eqn:E;
    try (split; [unfold ENODEV, EINVAL; lia | done]); [|done].
  split; [|done]. intros Hz. exfalso.
  assert (IS_ERR (mapped_at pf) = true) as Herr.
  { unfold attach_error_of, mapped_at in *.
    destruct (acpi_evaluate_ADDR pf) as [status parsed]. cbn [snd].
    repeat match type of E with
           | (if ?c then _ else _) = _ => destruct c eqn:?; try done
           end. }
  apply IS_ERR_PTR_ERR in Herr. lia.
Qed.

Lemma length_junk pf : length (this_id (junk_state pf)) = VMGENID_SIZE.
Proof. cbn [junk_state this_id]. by rewrite length_map, length_seq. Qed.

Lemma vmgenid_add_nomem pf w :
  devm_kmalloc_ret pf = NULL ->
  vmgenid_add pf w = Some (- ENOMEM, logged [EvDevmKmalloc NULL] w).
Proof.
  intros Hp. unfold vmgenid_add, mbind, M_bind, devm_kmalloc.
  rewrite Hp. done.
Qed.

Lemma devm_kmalloc_run pf w :
  devm_kmalloc_ret pf <> NULL ->
  devm_kmalloc pf w = Some (devm_kmalloc_ret pf, allocated pf w).
Proof.
  intros Hp%Z.eqb_neq. unfold devm_kmalloc. by rewrite Hp.
Qed.

Lemma vmgenid_add_noacpi pf w :
  CONFIG_ACPI pf = false ->
  devm_kmalloc_ret pf <> NULL ->
  vmgenid_add pf w = Some (- EINVAL, released pf (allocated pf w)).
Proof.
  intros Hcfg Hp. unfold vmgenid_add, mbind, M_bind.
  rewrite devm_kmalloc_run by done.
  apply Z.eqb_neq in Hp. rewrite Hp.
  unfold vmgenid_add_acpi. by rewrite Hcfg.
Qed.

Lemma vmgenid_add_run pf w :
  CONFIG_ACPI pf = true ->
  devm_kmalloc_ret pf <> NULL ->
  vmgenid_add pf w =
    Some (attach_ret pf,
          let w' := attach_world pf (devm_kmalloc_ret pf) (allocated pf w) in
          if attach_ret pf =? 0 then w' else released pf w').
Proof.
  intros Hcfg Hp. unfold vmgenid_add, mbind, M_bind.
  rewrite devm_kmalloc_run by done.
  pose proof Hp as Hp'. apply Z.eqb_neq in Hp'. rewrite Hp'.
  rewrite (vmgenid_add_acpi_run pf _ _ (junk_state pf));
    [|done| |apply length_junk].
  2:{ cbn. apply lookup_insert_eq. }
  by destruct (attach_ret pf =? 0).
Qed.

(** * The monitor's change detection *)

Lemma host_rewrite_same w : host_rewrite (mem w) w = w.
Proof. by destruct w. Qed.

Lemma monitor_with_state w st :
  monitor (with_state (driver_data w) st w) = Some st.
Proof. unfold monitor. cbn. apply lookup_insert_eq. Qed.

(** C2. When the value read from the region equals the stored snapshot,
    [vmgenid_notify] leaves by its early return ([Unchanged]) and the world
    is exactly what it was: no entropy call, no uevent.  Consequently any
    sequence of notifications during which the region keeps that value
    yields [Unchanged] every time and adds nothing to the log. *)
Theorem notify_unchanged_silent w st (ms : list (Z -> byte)) :
  monitor w = Some st ->
  region w st = this_id st ->
  Forall (fun m => read_bytes m (next_id st) VMGENID_SIZE = this_id st) ms ->
  vmgenid_notify w = Some (Unchanged, w) /\
  exists w',
    signals ms w = Some (repeat Unchanged (length ms), w') /\
    heap w' = heap w /\ driver_data w' = driver_data w /\ log w' = log w.
Proof.
  intros Hm Hsame Hall. split.
  - pose proof (signal_same (mem w) w st Hm Hsame) as H.
    unfold signal, vmgenid_acpi_handler in H.
    by rewrite host_rewrite_same in H.
  - by apply (signals_same ms w st).
Qed.

Lemma notify_unchanged_silent_witness :
  vmgenid_notify demo_world = Some (Unchanged, demo_world) /\
  exists w',
    signals [demo_mem_zero; demo_mem_zero; demo_mem_zero] demo_world =
      Some ([Unchanged; Unchanged; Unchanged], w') /\
    heap w' = heap demo_world /\
    driver_data w' = driver_data demo_world /\
    log w' = log demo_world.
Proof.
  apply (notify_unchanged_silent demo_world demo_state
           [demo_mem_zero; demo_mem_zero; demo_mem_zero]).
  - reflexivity.
  - reflexivity.
  - repeat constructor.
Defined.

(** C3. When the value read from the region differs from the stored
    snapshot, [vmgenid_notify] runs to its end ([Changed]); the snapshot
    becomes the value read; the log grows by exactly one
    [add_vmfork_randomness] call carrying those 16 bytes followed by exactly
    one [KOBJ_CHANGE] uevent. *)
Theorem notify_changed_once w st :
  monitor w = Some st ->
  length (this_id st) = VMGENID_SIZE ->
  region w st <> this_id st ->
  exists w',
    vmgenid_notify w = Some (Changed, w') /\
    monitor w' = Some {| next_id := next_id st; this_id := region w st |} /\
    log w' = log w ++
             [EvAddVmforkRandomness (region w st) VMGENID_SIZE;
              EvKobjectUeventEnv KOBJ_CHANGE ["NEW_VMGENID=1"%string]] /\
    length (region w st) = VMGENID_SIZE /\
    driver_data w' = driver_data w /\ mem w' = mem w.
Proof.
  intros Hm Hlen Hne.
  pose proof (signal_differs (mem w) w st Hm Hlen Hne) as H.
  unfold signal, vmgenid_acpi_handler in H.
  rewrite host_rewrite_same in H. cbv zeta in H.
  eexists. split; [exact H|].
  split; [apply (monitor_with_state w)|].
  split; [done|]. split; [apply length_read_bytes|done].
Qed.

Lemma notify_changed_once_witness :
  exists w',
    vmgenid_notify (host_rewrite demo_mem_pattern demo_world) =
      Some (Changed, w') /\
    monitor w' = Some {| next_id := 8192; this_id := demo_pattern |} /\
    log w' = [EvAddVmforkRandomness demo_pattern VMGENID_SIZE;
              EvKobjectUeventEnv KOBJ_CHANGE ["NEW_VMGENID=1"%string]] /\
    length demo_pattern = VMGENID_SIZE /\
    driver_data w' = 4096 /\ mem w' = demo_mem_pattern.
Proof.
  apply (notify_changed_once (host_rewrite demo_mem_pattern demo_world)
           demo_state).
  - reflexivity.
  - reflexivity.
  - vm_compute. discriminate.
Defined.

(** C4. Two consecutive notifications that find the same new value in the
    region give [Changed] then [Unchanged]; however many further
    notifications find that value, they all give [Unchanged], and the log
    holds the side effects of the first one only. *)
Theorem duplicate_signal_idempotent w st m (ms : list (Z -> byte)) :
  monitor w = Some st ->
  length (this_id st) = VMGENID_SIZE ->
  read_bytes m (next_id st) VMGENID_SIZE <> this_id st ->
  Forall (fun m' => read_bytes m' (next_id st) VMGENID_SIZE =
                    read_bytes m (next_id st) VMGENID_SIZE) ms ->
  fst <$> signals [m; m] w = Some [Changed; Unchanged] /\
  exists w',
    signals (m :: ms) w = Some (Changed :: repeat Unchanged (length ms), w') /\
    log w' = log w ++ change_events (read_bytes m (next_id st) VMGENID_SIZE) /\
    monitor w' =
      Some {| next_id := next_id st;
              this_id := read_bytes m (next_id st) VMGENID_SIZE |}.
Proof.
  intros Hm Hlen Hne Hall.
  pose proof (signal_differs m w st Hm Hlen Hne) as Hfirst. cbv zeta in Hfirst.
  set (id := read_bytes m (next_id st) VMGENID_SIZE) in *.
  set (st1 := {| next_id := next_id st; this_id := id |}) in *.
  set (w1 := {| heap := <[driver_data w := st1]> (heap w);
                driver_data := driver_data w; mem := m;
                log := log w ++ change_events id |}) in *.
  assert (Hm1 : monitor w1 = Some st1) by apply lookup_insert_eq.
  assert (Hrest : forall ms',
             Forall (fun m' => read_bytes m' (next_id st1) VMGENID_SIZE =
                               this_id st1) ms' ->
             exists w', signals (m :: ms') w =
                          Some (Changed :: repeat Unchanged (length ms'), w') /\
                        log w' = log w1 /\ monitor w' = monitor w1).
  { intros ms' Hall'.
    destruct (signals_same ms' w1 st1 Hm1 Hall') as (w' & Hrun & Hh & Hd & Hl).
    exists w'. split; [|split; [done|]].
    - cbn [signals]. unfold mbind, M_bind. by rewrite Hfirst, Hrun.
    - unfold monitor. by rewrite Hh, Hd. }
  split.
  - destruct (Hrest [m]) as (w' & -> & _); [|done].
    by repeat constructor.
  - destruct (Hrest ms Hall) as (w' & Hrun & Hl & Hmon).
    exists w'. split; [done|]. split; [done|]. by rewrite Hmon.
Qed.

Lemma duplicate_signal_idempotent_witness :
  fst <$> signals [demo_mem_pattern; demo_mem_pattern] demo_world =
    Some [Changed; Unchanged] /\
  exists w',
    signals [demo_mem_pattern; demo_mem_pattern; demo_mem_pattern] demo_world =
      Some ([Changed; Unchanged; Unchanged], w') /\
    log w' = change_events demo_pattern /\
    monitor w' = Some {| next_id := 8192; this_id := demo_pattern |}.
Proof.
  apply (duplicate_signal_idempotent demo_world demo_state demo_mem_pattern
           [demo_mem_pattern; demo_mem_pattern]).
  - reflexivity.
  - reflexivity.
  - vm_compute. discriminate.
  - repeat constructor.
Defined.

(** C10. Whatever the region holds, [vmgenid_notify] returns, and afterwards
    [this_id] is the value it read from the region during the call, in the
    [Unchanged] case as much as in the [Changed] one; the outcome is decided
    by comparing the snapshot held before the call with that fresh read. *)
Theorem notify_snapshot_is_fresh_read w st :
  monitor w = Some st ->
  length (this_id st) = VMGENID_SIZE ->
  exists o w',
    vmgenid_notify w = Some (o, w') /\
    monitor w' = Some {| next_id := next_id st; this_id := region w st |} /\
    (o = Unchanged <-> this_id st = region w st) /\
    (o = Changed <-> this_id st <> region w st).
Proof.
  intros Hm Hlen.
  destruct (vmgenid_notify_run w st Hm Hlen) as (c & _ & Hiff & Hrun).
  eexists _, _. split; [exact Hrun|].
  split; [apply lookup_insert_eq|].
  destruct (Z.eqb_spec c 0) as [E|E]; split; split; try done.
  - intros _. by apply Hiff.
  - intros Hne. exfalso. apply Hne. by apply Hiff.
  - intros Heq. exfalso. apply E. by apply Hiff.
  - intros _ Heq. apply E. by apply Hiff.
Qed.

Lemma notify_snapshot_is_fresh_read_witness :
  exists o w',
    vmgenid_notify (host_rewrite demo_mem_pattern demo_world) = Some (o, w') /\
    monitor w' = Some {| next_id := 8192; this_id := demo_pattern |} /\
    (o = Unchanged <-> demo_zero = demo_pattern) /\
    (o = Changed <-> demo_zero <> demo_pattern).
Proof.
  apply (notify_snapshot_is_fresh_read
           (host_rewrite demo_mem_pattern demo_world) demo_state).
  - reflexivity.
  - reflexivity.
Defined.

(** * Initialisation *)

(** C5. Given a pointer that is not an error value, [setup_vmgenid_state]
    returns 0, leaves [next_id] pointing at the region and [this_id] equal
    to the 16 bytes the region holds at that moment, and makes exactly one
    entropy call, [add_device_randomness] with those bytes (never the
    forced reseed).  It returns non-zero exactly when the pointer is an
    error value, and then returns that error and touches nothing. *)
Theorem setup_seeds_once state p w st :
  heap w !! state = Some st ->
  length (this_id st) = VMGENID_SIZE ->
  exists r w',
    setup_vmgenid_state state p w = Some (r, w') /\
    (r <> 0 <-> IS_ERR p = true) /\
    (IS_ERR p = true -> r = PTR_ERR p /\ w' = w) /\
    (IS_ERR p = false ->
       r = 0 /\
       heap w' !! state =
         Some {| next_id := p;
                 this_id := read_bytes (mem w) p VMGENID_SIZE |} /\
       log w' = log w ++
                [EvAddDeviceRandomness (read_bytes (mem w) p VMGENID_SIZE)
                                       VMGENID_SIZE] /\
       driver_data w' = driver_data w /\ mem w' = mem w).
Proof.
  intros Hst Hlen. destruct (IS_ERR p) eqn:Herr.
  - exists (PTR_ERR p), w.
    split; [by apply setup_vmgenid_state_err|].
    pose proof (IS_ERR_PTR_ERR p Herr).
    split; [split; [done | lia]|]. split; done.
  - eexists _, _.
    split; [by apply (setup_vmgenid_state_ok state p w st)|].
    split; [split; done|]. split; [done|]. intros _.
    split; [done|]. split; [apply lookup_insert_eq | done].
Qed.

Lemma setup_seeds_once_witness :
  exists r w',
    setup_vmgenid_state 4096 8192 demo_world = Some (r, w') /\
    (r <> 0 <-> IS_ERR 8192 = true) /\
    (IS_ERR 8192 = true -> r = PTR_ERR 8192 /\ w' = demo_world) /\
    (IS_ERR 8192 = false ->
       r = 0 /\
       heap w' !! 4096 =
         Some {| next_id := 8192;
                 this_id := read_bytes (mem demo_world) 8192 VMGENID_SIZE |} /\
       log w' = log demo_world ++
                [EvAddDeviceRandomness
                   (read_bytes (mem demo_world) 8192 VMGENID_SIZE)
                   VMGENID_SIZE] /\
       driver_data w' = driver_data demo_world /\ mem w' = mem demo_world).
Proof.
  apply (setup_seeds_once 4096 8192 demo_world demo_state).
  - reflexivity.
  - reflexivity.
Defined.

(** * The address resolver *)

Lemma u64_small z : 0 <= z < 2 ^ 64 -> u64 z = z.
Proof. intros H. unfold u64. by apply Z.mod_small. Qed.

Lemma testbit_u64 z i :
  0 <= i -> Z.testbit (u64 z) i = (i <? 64) && Z.testbit z i.
Proof.
  intros Hi. unfold u64. destruct (Z.ltb_spec i 64).
  - by rewrite Z.mod_pow2_bits_low.
  - by rewrite Z.mod_pow2_bits_high.
Qed.

Lemma phys_addr_of_unmasked lo hi :
  0 <= lo < 2 ^ 64 -> phys_addr_of lo hi = Z.lor lo (u64 (Z.shiftl hi 32)).
Proof.
  intros Hlo. unfold phys_addr_of. by rewrite Z.shiftl_0_r, u64_small.
Qed.

Lemma land_low32 lo : 0 <= lo < 2 ^ 32 -> Z.land lo 0xFFFFFFFF = lo.
Proof.
  intros Hlo. change 0xFFFFFFFF with (Z.ones 32).
  rewrite Z.land_ones by lia. by apply Z.mod_small.
Qed.

Lemma mappings_app l1 l2 : mappings (l1 ++ l2) = mappings l1 ++ mappings l2.
Proof. apply List.filter_app. Qed.

Lemma diagnostics_app l1 l2 :
  diagnostics (l1 ++ l2) = diagnostics l1 ++ diagnostics l2.
Proof. apply List.filter_app. Qed.

Lemma u64_lor a b : u64 (Z.lor a b) = Z.lor (u64 a) (u64 b).
Proof.
  apply Z.bits_inj'. intros i Hi.
  rewrite Z.lor_spec, !testbit_u64, Z.lor_spec by done.
  by destruct (i <? 64).
Qed.

Lemma attach_events_mapped pf w lo hi :
  ACPI_FAILURE (fst (acpi_evaluate_ADDR pf)) = false ->
  snd (acpi_evaluate_ADDR pf) =
    Some (ACPI_Package [ACPI_Integer lo; ACPI_Integer hi]) ->
  mappings (attach_events pf w) =
    [EvDevmMemremap (phys_addr_of lo hi) VMGENID_SIZE MEMREMAP_WB].
Proof.
  unfold attach_events, attach_error_of, mapped_at.
  destruct (acpi_evaluate_ADDR pf) as [status parsed]. cbn [fst snd].
  intros -> ->. cbn [two_integers negb descriptor_phys_addr].
  destruct (IS_ERR _); [done|]. by destruct (ACPI_FAILURE _).
Qed.

(** C1 (as amended). For a descriptor of two 64-bit integers [lo] and [hi]
    the resolver asks for the mapping of the physical address
    [lo | (hi << 32)] computed on 64 bits: bits 0-31 come from the low
    element alone, bits 32-63 are those of the high element's low half
    or-ed with the low element's own bits 32-63, which are not masked
    away.  The address is [(lo & 0xFFFFFFFF) | (hi << 32)] whenever the low
    element fits in 32 bits. *)
Theorem resolver_phys_addr pf state w st lo hi :
  CONFIG_ACPI pf = true ->
  heap w !! state = Some st ->
  length (this_id st) = VMGENID_SIZE ->
  ACPI_FAILURE (fst (acpi_evaluate_ADDR pf)) = false ->
  snd (acpi_evaluate_ADDR pf) =
    Some (ACPI_Package [ACPI_Integer lo; ACPI_Integer hi]) ->
  0 <= lo < 2 ^ 64 ->
  0 <= hi < 2 ^ 64 ->
  (exists r w',
     vmgenid_add_acpi pf state w = Some (r, w') /\
     mappings (log w') =
       mappings (log w) ++
       [EvDevmMemremap (Z.lor lo (u64 (Z.shiftl hi 32)))
                       VMGENID_SIZE MEMREMAP_WB]) /\
  phys_addr_of lo hi = Z.lor lo (u64 (Z.shiftl hi 32)) /\
  0 <= phys_addr_of lo hi < 2 ^ 64 /\
  (forall i, 0 <= i < 32 ->
     Z.testbit (phys_addr_of lo hi) i = Z.testbit lo i) /\
  (forall i, 32 <= i < 64 ->
     Z.testbit (phys_addr_of lo hi) i =
       Z.testbit lo i || Z.testbit hi (i - 32)) /\
  (lo < 2 ^ 32 -> phys_addr_of lo hi = claimed_phys_addr lo hi).
Proof.
  intros Hcfg Hst Hlen Hok Hshape Hlo Hhi.
  pose proof (phys_addr_of_unmasked lo hi Hlo) as Hphys.
  split; [|split; [done|split; [|split; [|split]]]].
  - eexists _, _. split; [by apply (vmgenid_add_acpi_run pf state w st)|].
    cbn [attach_world log]. rewrite mappings_app.
    by rewrite (attach_events_mapped pf _ lo hi), Hphys.
  - unfold phys_addr_of. rewrite <- u64_lor. unfold u64.
    apply Z.mod_pos_bound. lia.
  - intros i Hi. rewrite Hphys, Z.lor_spec, testbit_u64 by lia.
    rewrite Z.shiftl_spec, (Z.testbit_neg_r hi) by lia.
    by rewrite andb_false_r, orb_false_r.
  - intros i Hi. rewrite Hphys, Z.lor_spec, testbit_u64 by lia.
    rewrite Z.shiftl_spec by lia.
    replace (i <? 64) with true by (symmetry; apply Z.ltb_lt; lia). done.
  - intros Hsmall. rewrite Hphys. unfold claimed_phys_addr.
    rewrite land_low32 by lia. done.
Qed.

Lemma resolver_phys_addr_witness :
  (exists r w',
     vmgenid_add_acpi demo_pf_ok 4096 demo_world = Some (r, w') /\
     mappings (log w') =
       mappings (log demo_world) ++
       [EvDevmMemremap (Z.lor 0x1000 (u64 (Z.shiftl 0x2 32)))
                       VMGENID_SIZE MEMREMAP_WB]) /\
  phys_addr_of 0x1000 0x2 = Z.lor 0x1000 (u64 (Z.shiftl 0x2 32)) /\
  0 <= phys_addr_of 0x1000 0x2 < 2 ^ 64 /\
  (forall i, 0 <= i < 32 ->
     Z.testbit (phys_addr_of 0x1000 0x2) i = Z.testbit 0x1000 i) /\
  (forall i, 32 <= i < 64 ->
     Z.testbit (phys_addr_of 0x1000 0x2) i =
       Z.testbit 0x1000 i || Z.testbit 0x2 (i - 32)) /\
  (0x1000 < 2 ^ 32 -> phys_addr_of 0x1000 0x2 = claimed_phys_addr 0x1000 0x2).
Proof.
  apply (resolver_phys_addr demo_pf_ok 4096 demo_world demo_state 0x1000 0x2).
  - reflexivity.
  - reflexivity.
  - reflexivity.
  - reflexivity.
  - reflexivity.
  - lia.
  - lia.
Defined.

(** C1 (as stated) fails: when the low element has bit 32 set the driver
    maps the address with that bit, where the masked formula gives 0. *)
Lemma resolver_low_element_unmasked_counterexample :
  (fun rw => mappings (log (snd rw))) <$> vmgenid_add demo_pf_wide_low demo_boot
    = Some [EvDevmMemremap 0x100000000 VMGENID_SIZE MEMREMAP_WB] /\
  claimed_phys_addr 0x100000000 0 = 0 /\
  phys_addr_of 0x100000000 0 <> claimed_phys_addr 0x100000000 0.
Proof.
  split; [reflexivity|]. split; [reflexivity|]. vm_compute. discriminate.
Qed.

Lemma vmgenid_add_acpi_unresolved pf state w :
  CONFIG_ACPI pf = true ->
  ACPI_FAILURE (fst (acpi_evaluate_ADDR pf)) = true \/
  two_integers (snd (acpi_evaluate_ADDR pf)) = false ->
  vmgenid_add_acpi pf state w =
    Some (if ACPI_FAILURE (fst (acpi_evaluate_ADDR pf))
          then - ENODEV else - EINVAL,
          logged (EvAcpiEvaluateObject "ADDR" (fst (acpi_evaluate_ADDR pf)) ::
                  (if ACPI_FAILURE (fst (acpi_evaluate_ADDR pf))
                   then [EvAcpiException (fst (acpi_evaluate_ADDR pf))
                                         "Evaluating ADDR"]
                   else [EvAcpiFree])) w).
Proof.
  intros Hcfg Hwhy. unfold vmgenid_add_acpi. rewrite Hcfg.
  unfold acpi_evaluate_object, mbind, M_bind, emit, mret, M_ret, logged.
  destruct (acpi_evaluate_ADDR pf) as [status parsed].
  cbn [fst snd heap driver_data mem log] in *.
  destruct (ACPI_FAILURE status) eqn:Hfail.
  { cbn. by rewrite <- app_assoc. }
  destruct Hwhy as [?|Hshape]; [done|].
  unfold vmgenid_add_acpi_body.
  rewrite addr_malformed_two_integers, Hshape.
  cbn. by rewrite <- app_assoc.
Qed.

(** C6. When evaluating the firmware method fails the resolver returns
    [-ENODEV] ([ResolutionError]); when the evaluation succeeds but the
    object is not a package of exactly two integers (a single-element
    package for one) it returns [-EINVAL] ([MalformedDescriptor]).  In both
    cases [devm_memremap] is not called and the heap, [driver_data] and the
    mapped memory are as before. *)
Theorem resolver_rejects pf state w :
  CONFIG_ACPI pf = true ->
  ACPI_FAILURE (fst (acpi_evaluate_ADDR pf)) = true \/
  two_integers (snd (acpi_evaluate_ADDR pf)) = false ->
  exists w',
    vmgenid_add_acpi pf state w =
      Some (if ACPI_FAILURE (fst (acpi_evaluate_ADDR pf))
            then - ENODEV else - EINVAL, w') /\
    attach_error_of pf =
      Some (if ACPI_FAILURE (fst (acpi_evaluate_ADDR pf))
            then ResolutionError else MalformedDescriptor) /\
    mappings (log w') = mappings (log w) /\
    heap w' = heap w /\ driver_data w' = driver_data w /\ mem w' = mem w /\
    (forall e, two_integers (Some (ACPI_Package [e])) = false).
Proof.
  intros Hcfg Hwhy. eexists.
  split; [by apply vmgenid_add_acpi_unresolved|].
  split; [|split; [|split; [done|split; [done|split; [done|]]]]].
  - unfold attach_error_of.
    destruct (acpi_evaluate_ADDR pf) as [status parsed]. cbn [fst snd] in *.
    destruct (ACPI_FAILURE status); [done|].
    destruct Hwhy as [?| ->]; done.
  - cbn [logged log]. rewrite mappings_app.
    destruct (ACPI_FAILURE _); cbn; by rewrite app_nil_r.
  - by intros [].
Qed.

Lemma resolver_rejects_witness :
  exists w',
    vmgenid_add_acpi demo_pf_single 4096 demo_world =
      Some (if ACPI_FAILURE (fst (acpi_evaluate_ADDR demo_pf_single))
            then - ENODEV else - EINVAL, w') /\
    attach_error_of demo_pf_single =
      Some (if ACPI_FAILURE (fst (acpi_evaluate_ADDR demo_pf_single))
            then ResolutionError else MalformedDescriptor) /\
    mappings (log w') = mappings (log demo_world) /\
    heap w' = heap demo_world /\
    driver_data w' = driver_data demo_world /\
    mem w' = mem demo_world /\
    (forall e, two_integers (Some (ACPI_Package [e])) = false).
Proof.
  apply (resolver_rejects demo_pf_single 4096 demo_world).
  - reflexivity.
  - right. reflexivity.
Defined.

(** * Attachment failures *)

Lemma attach_events_diagnostics pf w :
  diagnostics (attach_events pf w) =
    match attach_error_of pf with
    | Some RegistrationError =>
        [EvDevErr "Failed to install acpi notify handler"]
    | Some ResolutionError =>
        [EvAcpiException (fst (acpi_evaluate_ADDR pf)) "Evaluating ADDR"]
    | _ => []
    end.
Proof. unfold attach_events. by destruct (attach_error_of pf) as [[]|]. Qed.

(** C8 (as stated) fails: a firmware query failure is reported through
    [ACPI_EXCEPTION] although the notify handler registration is never
    reached. *)
Lemma firmware_failure_logged_counterexample :
  attach_error_of demo_pf_noaddr = Some ResolutionError /\
  (fun rw => (fst rw, diagnostics (log (snd rw)))) <$>
    vmgenid_add demo_pf_noaddr demo_boot =
  Some (- ENODEV, [EvAcpiException 5 "Evaluating ADDR"]).
Proof. split; reflexivity. Qed.

(** C8 (as amended). Among the attachment failures, the failed
    registration of the notify handler produces one diagnostic ([dev_err])
    and the failed firmware query produces one ([ACPI_EXCEPTION]); a
    malformed descriptor and a failed mapping produce none. *)
Theorem attach_failure_diagnostics pf w :
  CONFIG_ACPI pf = true ->
  devm_kmalloc_ret pf <> NULL ->
  is_Some (attach_error_of pf) ->
  exists r w',
    vmgenid_add pf w = Some (r, w') /\ r <> 0 /\
    diagnostics (log w') =
      diagnostics (log w) ++
      match attach_error_of pf with
      | Some RegistrationError =>
          [EvDevErr "Failed to install acpi notify handler"]
      | Some ResolutionError =>
          [EvAcpiException (fst (acpi_evaluate_ADDR pf)) "Evaluating ADDR"]
      | _ => []
      end.
Proof.
  intros Hcfg Hp [e He]. eexists _, _.
  split; [by apply vmgenid_add_run|].
  assert (Hret : attach_ret pf <> 0).
  { intros Hz%attach_ret_zero. congruence. }
  split; [done|]. cbv zeta.
  apply Z.eqb_neq in Hret. rewrite Hret.
  cbn [released allocated attach_world logged without_state with_state log].
  rewrite !diagnostics_app, attach_events_diagnostics. cbn.
  by rewrite !app_nil_r.
Qed.

Lemma attach_failure_diagnostics_witness :
  exists r w',
    vmgenid_add demo_pf_noreg demo_boot = Some (r, w') /\ r <> 0 /\
    diagnostics (log w') =
      diagnostics (log demo_boot) ++
      match attach_error_of demo_pf_noreg with
      | Some RegistrationError =>
          [EvDevErr "Failed to install acpi notify handler"]
      | Some ResolutionError =>
          [EvAcpiException (fst (acpi_evaluate_ADDR demo_pf_noreg))
                           "Evaluating ADDR"]
      | _ => []
      end.
Proof.
  apply (attach_failure_diagnostics demo_pf_noreg demo_boot).
  - reflexivity.
  - discriminate.
  - exists RegistrationError. reflexivity.
Defined.

Lemma released_heap pf state w :
  state = devm_kmalloc_ret pf ->
  heap w !! state = None ->
  heap (released pf (attach_world pf state (allocated pf w))) = heap w.
Proof.
  intros -> Hfresh.
  cbn [released logged without_state attach_world heap].
  unfold attach_heap.
  destruct (attach_error_of pf) as [[]|];
    cbn [allocated logged with_state heap];
    rewrite ?delete_insert_eq; by apply delete_id.
Qed.

(** C9. Whenever [vmgenid_add] returns an error after the monitor state was
    allocated, the state has been freed (the heap is what it was before the
    call, the last call made is its [devm_kfree]) and [driver_data] does
    not point at it: it is what it was before the call, or [NULL]; after a
    failed registration of the notify handler it is [NULL]. *)
Theorem vmgenid_add_failure_atomic pf w r w' :
  devm_kmalloc_ret pf <> NULL ->
  heap w !! devm_kmalloc_ret pf = None ->
  driver_data w <> devm_kmalloc_ret pf ->
  vmgenid_add pf w = Some (r, w') ->
  r <> 0 ->
  heap w' = heap w /\
  heap w' !! devm_kmalloc_ret pf = None /\
  driver_data w' <> devm_kmalloc_ret pf /\
  (driver_data w' = driver_data w \/ driver_data w' = NULL) /\
  last (log w') = Some (EvDevmKfree (devm_kmalloc_ret pf)) /\
  (CONFIG_ACPI pf = true ->
   attach_error_of pf = Some RegistrationError ->
   driver_data w' = NULL).
Proof.
  intros Hp Hfresh Hdd Hrun Hr.
  destruct (CONFIG_ACPI pf) eqn:Hcfg.
  - rewrite vmgenid_add_run in Hrun by done. cbv zeta in Hrun.
    injection Hrun as <- <-.
    pose proof Hr as Hr'. apply Z.eqb_neq in Hr'. rewrite Hr'.
    assert (Hheap : heap (released pf (attach_world pf (devm_kmalloc_ret pf)
                                         (allocated pf w))) = heap w)
      by (by apply released_heap).
    split; [done|]. split; [by rewrite Hheap|].
    assert (Herr : attach_error_of pf <> None)
      by (intros Hz%attach_ret_zero; done).
    cbn [released logged without_state attach_world driver_data log].
    unfold attach_driver_data.
    split; [|split; [|split]].
    + destruct (attach_error_of pf) as [[]|]; try done; by apply not_eq_sym.
    + destruct (attach_error_of pf) as [[]|]; try done; auto.
    + apply last_snoc.
    + by intros _ ->.
  - rewrite vmgenid_add_noacpi in Hrun by done.
    injection Hrun as <- <-.
    cbn [released allocated logged without_state with_state heap
         driver_data log].
    rewrite delete_insert_eq, delete_id by done.
    split; [done|]. split; [done|]. split; [done|].
    split; [by left|]. split; [apply last_snoc | done].
Qed.

Lemma vmgenid_add_failure_atomic_witness :
  heap demo_unregistered = heap demo_boot /\
  heap demo_unregistered !! devm_kmalloc_ret demo_pf_noreg = None /\
  driver_data demo_unregistered <> devm_kmalloc_ret demo_pf_noreg /\
  (driver_data demo_unregistered = driver_data demo_boot \/
   driver_data demo_unregistered = NULL) /\
  last (log demo_unregistered) =
    Some (EvDevmKfree (devm_kmalloc_ret demo_pf_noreg)) /\
  (CONFIG_ACPI demo_pf_noreg = true ->
   attach_error_of demo_pf_noreg = Some RegistrationError ->
   driver_data demo_unregistered = NULL).
Proof.
  apply (vmgenid_add_failure_atomic demo_pf_noreg demo_boot (- ENODEV)
           demo_unregistered).
  - discriminate.
  - reflexivity.
  - discriminate.
  - reflexivity.
  - discriminate.
Defined.

(** [vmgenid_add] always returns: the state it hands to the attachment path
    is the one it has just allocated. *)
Lemma vmgenid_add_returns pf w : exists r w', vmgenid_add pf w = Some (r, w').
Proof.
  destruct (Z.eq_dec (devm_kmalloc_ret pf) NULL) as [Hp|Hp].
  { eexists _, _. by apply vmgenid_add_nomem. }
  destruct (CONFIG_ACPI pf) eqn:Hcfg; eexists _, _.
  - by apply vmgenid_add_run.
  - by apply vmgenid_add_noacpi.
Qed.

(** * The snapshot invariant *)

Lemma last_injected_app l1 l2 :
  last_injected (l1 ++ l2) =
    match last_injected l2 with
    | Some id => Some id
    | None => last_injected l1
    end.
Proof.
  induction l1 as [|e l1 IH]; cbn.
  - by destruct (last_injected l2).
  - rewrite IH. by destruct (last_injected l2).
Qed.

Lemma firstn_read_bytes m p :
  firstn VMGENID_SIZE (read_bytes m p VMGENID_SIZE) =
    read_bytes m p VMGENID_SIZE.
Proof.
  rewrite <- (length_read_bytes m p VMGENID_SIZE) at 1. apply firstn_all.
Qed.

Lemma tracks_injection_attach pf w0 w :
  vmgenid_add pf w0 = Some (0, w) -> tracks_injection w.
Proof.
  intros Hrun.
  destruct (Z.eq_dec (devm_kmalloc_ret pf) NULL) as [Hp|Hp].
  { by rewrite vmgenid_add_nomem in Hrun. }
  destruct (CONFIG_ACPI pf) eqn:Hcfg.
  2:{ by rewrite vmgenid_add_noacpi in Hrun. }
  rewrite vmgenid_add_run in Hrun by done. cbv zeta in Hrun.
  injection Hrun as Hret <-. rewrite Hret. cbn [Z.eqb].
  apply attach_ret_zero in Hret.
  exists (initial_state (allocated pf w0) (mapped_at pf)).
  unfold monitor.
  cbn [attach_world heap driver_data log initial_state this_id].
  unfold attach_heap, attach_driver_data, attach_events. rewrite Hret.
  split; [apply lookup_insert_eq|]. split; [apply length_read_bytes|].
  rewrite last_injected_app. cbn [last_injected entropy_payload].
  by rewrite firstn_read_bytes.
Qed.

Lemma tracks_injection_signal m w :
  tracks_injection w ->
  exists o w',
    signal m w = Some (o, w') /\
    tracks_injection w' /\
    (o = Unchanged -> monitor w' = monitor w /\ log w' = log w) /\
    (o = Changed ->
     exists st', monitor w' = Some st' /\
                 log w' = log w ++ change_events (this_id st')).
Proof.
  intros (st & Hm & Hlen & Hinj).
  destruct (signal_run m w st Hm Hlen) as (c & Hiff & Hrun).
  cbv zeta in Hrun. eexists _, _. split; [exact Hrun|].
  unfold tracks_injection, monitor in *.
  cbn [heap driver_data log]. rewrite lookup_insert_eq.
  destruct (Z.eqb_spec c 0) as [E|E].
  - apply Hiff in E. rewrite <- E, app_nil_r.
    split; [|split; [|done]].
    + eexists. split; [done|]. split; done.
    + intros _. split; [|done]. rewrite Hm. by destruct st.
  - split; [|split; [done|]].
    + eexists. split; [done|]. split; [apply length_read_bytes|].
      rewrite last_injected_app.
      cbn [change_events last_injected entropy_payload this_id].
      by rewrite firstn_read_bytes.
    + intros _. eexists. split; done.
Qed.

Lemma tracks_injection_signals ms : forall w,
  tracks_injection w ->
  exists os w', signals ms w = Some (os, w') /\ tracks_injection w'.
Proof.
  induction ms as [|m ms IH]; intros w Hw.
  - by exists [], w.
  - destruct (tracks_injection_signal m w Hw) as (o & w1 & Hrun & Hw1 & _).
    destruct (IH w1 Hw1) as (os & w' & Hrest & Hw').
    exists (o :: os), w'. split; [|done].
    cbn [signals]. unfold mbind, M_bind. by rewrite Hrun, Hrest.
Qed.

(** C7. Once [vmgenid_add] has succeeded, and after any sequence of
    notifications whatever the host wrote in between, the snapshot
    [this_id] of the attached monitor equals the bytes of the most recent
    entropy call (the seed of the initialisation or the latest forced
    reseed).  A notification that changes the monitor state is one that
    found a change and injected the new snapshot; one that returns
    [Unchanged] leaves monitor state and log as they were. *)
Theorem snapshot_tracks_last_injection pf w0 w ms m :
  vmgenid_add pf w0 = Some (0, w) ->
  tracks_injection w /\
  exists os w1,
    signals ms w = Some (os, w1) /\
    tracks_injection w1 /\
    exists o w2,
      signal m w1 = Some (o, w2) /\
      tracks_injection w2 /\
      (o = Unchanged -> monitor w2 = monitor w1 /\ log w2 = log w1) /\
      (monitor w2 <> monitor w1 ->
       o = Changed /\
       exists st2, monitor w2 = Some st2 /\
                   log w2 = log w1 ++ change_events (this_id st2)).
Proof.
  intros Hadd.
  pose proof (tracks_injection_attach pf w0 w Hadd) as Hw.
  split; [done|].
  destruct (tracks_injection_signals ms w Hw) as (os & w1 & Hrun & Hw1).
  exists os, w1. split; [done|]. split; [done|].
  destruct (tracks_injection_signal m w1 Hw1)
    as (o & w2 & Hsig & Hw2 & Hun & Hch).
  exists o, w2. split; [done|]. split; [done|]. split; [done|].
  intros Hne. destruct o.
  - exfalso. apply Hne. by apply Hun.
  - split; [done|]. by apply Hch.
Qed.

Lemma snapshot_tracks_last_injection_witness :
  tracks_injection demo_attached /\
  exists os w1,
    signals [demo_mem_pattern; demo_mem_pattern] demo_attached =
      Some (os, w1) /\
    tracks_injection w1 /\
    exists o w2,
      signal demo_mem_zero w1 = Some (o, w2) /\
      tracks_injection w2 /\
      (o = Unchanged -> monitor w2 = monitor w1 /\ log w2 = log w1) /\
      (monitor w2 <> monitor w1 ->
       o = Changed /\
       exists st2, monitor w2 = Some st2 /\
                   log w2 = log w1 ++ change_events (this_id st2)).
Proof.
  apply (snapshot_tracks_last_injection demo_pf_ok demo_boot demo_attached
           [demo_mem_pattern; demo_mem_pattern] demo_mem_zero).
  reflexivity.
Defined.

(** * The end-to-end scenario

    The region holds 16 zero bytes at attachment: the monitor seeds the
    entropy pool with them.  The host then rewrites the region to a pattern
    and raises a notification: the monitor reports [Changed], its snapshot
    is the pattern, and the log gains one forced reseed with the pattern and
    one uevent. *)
Example end_to_end :
  vmgenid_add demo_pf_ok demo_boot = Some (0, demo_attached) /\
  (fun ow => (fst ow, monitor (snd ow), log (snd ow))) <$>
    signal demo_mem_pattern demo_attached =
  Some (Changed,
        Some {| next_id := 8192; this_id := demo_pattern |},
        log demo_attached ++
        [EvAddVmforkRandomness demo_pattern VMGENID_SIZE;
         EvKobjectUeventEnv KOBJ_CHANGE ["NEW_VMGENID=1"%string]]).
Proof. split; reflexivity. Qed.

(** * Further properties of the resolver *)

(** X1. The shape test of [vmgenid_add_acpi] lets through exactly the
    packages of two integers: a null result, an object that is not a
    package, a package of another length and a package with an element that
    is not an integer are all rejected. *)
Theorem shape_test_exact parsed :
  addr_malformed parsed = false <->
  exists lo hi,
    parsed = Some (ACPI_Package [ACPI_Integer lo; ACPI_Integer hi]).
Proof.
  rewrite addr_malformed_two_integers. split.
  - intros H. apply two_integers_inv. by destruct (two_integers parsed).
  - by intros (lo & hi & ->).
Qed.

Lemma lor_split a :
  0 <= a -> Z.lor (a mod 2 ^ 32) (Z.shiftl (a / 2 ^ 32) 32) = a.
Proof.
  intros Ha. apply Z.bits_inj'. intros i Hi.
  rewrite Z.lor_spec. destruct (Z.ltb_spec i 32).
  - rewrite Z.mod_pow2_bits_low, Z.shiftl_spec_low by lia.
    apply orb_false_r.
  - rewrite Z.mod_pow2_bits_high, Z.shiftl_spec by lia.
    rewrite <- Z.shiftr_div_pow2, Z.shiftr_spec by lia.
    cbn [orb]. f_equal. lia.
Qed.

(** X2. Splitting a 64-bit physical address into its low and high 32-bit
    halves and handing the two to the resolver gives the address back. *)
Theorem phys_addr_split_roundtrip a :
  0 <= a < 2 ^ 64 ->
  phys_addr_of (a mod 2 ^ 32) (a / 2 ^ 32) = a.
Proof.
  intros Ha. unfold phys_addr_of.
  rewrite Z.shiftl_0_r, Z.shiftl_mul_pow2 by lia.
  assert (0 <= a mod 2 ^ 32 < 2 ^ 32) by (apply Z.mod_pos_bound; lia).
  assert (0 <= a / 2 ^ 32 < 2 ^ 32).
  { split; [apply Z.div_pos; lia|]. apply Z.div_lt_upper_bound; lia. }
  rewrite !u64_small by nia.
  rewrite <- Z.shiftl_mul_pow2 by lia. apply lor_split. lia.
Qed.

Lemma phys_addr_split_roundtrip_witness :
  phys_addr_of (0x200001000 mod 2 ^ 32) (0x200001000 / 2 ^ 32) = 0x200001000.
Proof. apply (phys_addr_split_roundtrip 0x200001000). lia. Defined.

(** X3. For elements that fit in 32 bits the address is
    [lo + hi * 2^32], and both elements can be read back from it: distinct
    descriptors designate distinct addresses. *)
Theorem phys_addr_halves lo hi :
  0 <= lo < 2 ^ 32 ->
  0 <= hi < 2 ^ 32 ->
  phys_addr_of lo hi = lo + hi * 2 ^ 32 /\
  phys_addr_of lo hi mod 2 ^ 32 = lo /\
  phys_addr_of lo hi / 2 ^ 32 = hi.
Proof.
  intros Hlo Hhi.
  assert (Hm : (lo + hi * 2 ^ 32) mod 2 ^ 32 = lo)
    by (rewrite Z.mod_add by lia; apply Z.mod_small; lia).
  assert (Hd : (lo + hi * 2 ^ 32) / 2 ^ 32 = hi)
    by (rewrite Z.div_add by lia; rewrite Z.div_small by lia; lia).
  assert (Hp : phys_addr_of lo hi = lo + hi * 2 ^ 32).
  { pose proof (lor_split (lo + hi * 2 ^ 32)) as Hs.
    rewrite Hm, Hd in Hs.
    unfold phys_addr_of. rewrite Z.shiftl_0_r, u64_small by lia.
    rewrite (u64_small (Z.shiftl hi 32))
      by (rewrite Z.shiftl_mul_pow2 by lia; nia).
    apply Hs. nia. }
  by rewrite Hp.
Qed.

Lemma phys_addr_halves_witness :
  phys_addr_of 0x1000 0x2 = 0x1000 + 0x2 * 2 ^ 32 /\
  phys_addr_of 0x1000 0x2 mod 2 ^ 32 = 0x1000 /\
  phys_addr_of 0x1000 0x2 / 2 ^ 32 = 0x2.
Proof. apply (phys_addr_halves 0x1000 0x2); lia. Defined.

(** X4. Only the low 32 bits of the high element reach the address: the
    shift pushes its upper half out of the 64-bit word. *)
Theorem phys_addr_high_truncated lo hi :
  phys_addr_of lo hi = phys_addr_of lo (hi mod 2 ^ 32).
Proof.
  unfold phys_addr_of, u64. f_equal.
  rewrite !Z.shiftl_mul_pow2 by lia.
  change (2 ^ 64) with (2 ^ 32 * 2 ^ 32).
  rewrite !Z.mul_mod_distr_r by lia.
  by rewrite Z.mod_mod by lia.
Qed.

(** * Further properties of the attachment path *)

Lemma attach_error_mapping pf :
  attach_error_of pf = Some MappingError -> IS_ERR (mapped_at pf) = true.
Proof.
  unfold attach_error_of, mapped_at.
  destruct (acpi_evaluate_ADDR pf) as [status parsed]. cbn [snd].
  intros E.
  repeat match type of E with
         | (if ?c then _ else _) = _ => destruct c eqn:?; try done
         end.
Qed.

Lemma attach_ret_range pf : - MAX_ERRNO <= attach_ret pf <= 0.
Proof.
  unfold attach_ret.
  destruct (attach_error_of pf) as [[]|] eqn:E;
    try (unfold MAX_ERRNO, ENODEV, EINVAL; lia).
  apply attach_error_mapping, IS_ERR_PTR_ERR in E. lia.
Qed.

Lemma vmgenid_add_attached pf w w' :
  vmgenid_add pf w = Some (0, w') ->
  devm_kmalloc_ret pf <> NULL /\
  CONFIG_ACPI pf = true /\
  attach_error_of pf = None /\
  w' = attach_world pf (devm_kmalloc_ret pf) (allocated pf w).
Proof.
  intros Hrun.
  destruct (Z.eq_dec (devm_kmalloc_ret pf) NULL) as [Hp|Hp].
  { by rewrite vmgenid_add_nomem in Hrun. }
  destruct (CONFIG_ACPI pf) eqn:Hcfg.
  2:{ by rewrite vmgenid_add_noacpi in Hrun. }
  rewrite vmgenid_add_run in Hrun by done. cbv zeta in Hrun.
  injection Hrun as Hret <-. rewrite Hret. cbn [Z.eqb].
  by apply attach_ret_zero in Hret.
Qed.

Lemma vmgenid_add_failed pf w e :
  CONFIG_ACPI pf = true ->
  devm_kmalloc_ret pf <> NULL ->
  attach_error_of pf = Some e ->
  vmgenid_add pf w =
    Some (attach_ret pf,
          released pf (attach_world pf (devm_kmalloc_ret pf)
                                    (allocated pf w))).
Proof.
  intros Hcfg Hp He. rewrite vmgenid_add_run by done. cbv zeta.
  assert (Hret : attach_ret pf <> 0)
    by (intros Hz%attach_ret_zero; congruence).
  apply Z.eqb_neq in Hret. by rewrite Hret.
Qed.

(** X5. [vmgenid_add] always returns, and what it returns is 0 or a
    negative errno no smaller than [-MAX_ERRNO].  It returns 0 exactly when
    the allocation succeeded, ACPI support is compiled in, and evaluation,
    shape test, mapping and handler registration all succeeded. *)
Theorem vmgenid_add_return_value pf w :
  exists r w',
    vmgenid_add pf w = Some (r, w') /\
    - MAX_ERRNO <= r <= 0 /\
    (r = 0 <->
     devm_kmalloc_ret pf <> NULL /\
     CONFIG_ACPI pf = true /\
     attach_error_of pf = None).
Proof.
  destruct (Z.eq_dec (devm_kmalloc_ret pf) NULL) as [Hp|Hp].
  { eexists _, _. split; [by apply vmgenid_add_nomem|].
    split; [unfold MAX_ERRNO, ENOMEM; lia|].
    split; [unfold ENOMEM; lia | by intros (? & _)]. }
  destruct (CONFIG_ACPI pf) eqn:Hcfg.
  - eexists _, _. split; [by apply vmgenid_add_run|].
    split; [apply attach_ret_range|].
    rewrite attach_ret_zero. split; [done | by intros (_ & _ & ?)].
  - eexists _, _. split; [by apply vmgenid_add_noacpi|].
    split; [unfold MAX_ERRNO, EINVAL; lia|].
    split; [unfold EINVAL; lia | by intros (_ & ? & _)].
Qed.

(** X6. When [vmgenid_add] returns 0 the device's [driver_data] is the newly
    allocated state, whose [next_id] is the pointer [devm_memremap] returned
    and whose [this_id] holds the 16 bytes found there; no other heap object
    and no mapped memory was touched; the calls made were, in this order:
    allocate, evaluate ADDR, map 16 bytes write-back at the descriptor's
    address, seed the entropy pool with the snapshot, install the notify
    handler, free the ACPI buffer. *)
Theorem vmgenid_add_success_state pf w w' :
  vmgenid_add pf w = Some (0, w') ->
  devm_kmalloc_ret pf <> NULL /\
  driver_data w' = devm_kmalloc_ret pf /\
  monitor w' =
    Some {| next_id := mapped_at pf;
            this_id := read_bytes (mem w) (mapped_at pf) VMGENID_SIZE |} /\
  mem w' = mem w /\
  (forall q, q <> devm_kmalloc_ret pf -> heap w' !! q = heap w !! q) /\
  log w' =
    log w ++
    [EvDevmKmalloc (devm_kmalloc_ret pf);
     EvAcpiEvaluateObject "ADDR" (fst (acpi_evaluate_ADDR pf));
     EvDevmMemremap (descriptor_phys_addr (snd (acpi_evaluate_ADDR pf)))
                    VMGENID_SIZE MEMREMAP_WB;
     EvAddDeviceRandomness (read_bytes (mem w) (mapped_at pf) VMGENID_SIZE)
                           VMGENID_SIZE;
     EvAcpiInstallNotifyHandler (acpi_install_notify_handler_ret pf);
     EvAcpiFree].
Proof.
  intros (Hp & Hcfg & Herr & ->)%vmgenid_add_attached.
  unfold monitor.
  cbn [attach_world heap driver_data mem log allocated logged with_state].
  unfold attach_heap, attach_driver_data, attach_events. rewrite Herr.
  cbn [allocated logged with_state heap driver_data mem log initial_state].
  split; [done|]. split; [done|].
  split; [apply lookup_insert_eq|]. split; [done|]. split.
  - intros q Hq. apply not_eq_sym in Hq. by rewrite !lookup_insert_ne.
  - by rewrite <- app_assoc.
Qed.

Lemma vmgenid_add_success_state_witness :
  devm_kmalloc_ret demo_pf_ok <> NULL /\
  driver_data demo_attached = devm_kmalloc_ret demo_pf_ok /\
  monitor demo_attached =
    Some {| next_id := mapped_at demo_pf_ok;
            this_id := read_bytes (mem demo_boot) (mapped_at demo_pf_ok)
                                  VMGENID_SIZE |} /\
  mem demo_attached = mem demo_boot /\
  (forall q, q <> devm_kmalloc_ret demo_pf_ok ->
             heap demo_attached !! q = heap demo_boot !! q) /\
  log demo_attached =
    log demo_boot ++
    [EvDevmKmalloc (devm_kmalloc_ret demo_pf_ok);
     EvAcpiEvaluateObject "ADDR" (fst (acpi_evaluate_ADDR demo_pf_ok));
     EvDevmMemremap
       (descriptor_phys_addr (snd (acpi_evaluate_ADDR demo_pf_ok)))
       VMGENID_SIZE MEMREMAP_WB;
     EvAddDeviceRandomness
       (read_bytes (mem demo_boot) (mapped_at demo_pf_ok) VMGENID_SIZE)
       VMGENID_SIZE;
     EvAcpiInstallNotifyHandler (acpi_install_notify_handler_ret demo_pf_ok);
     EvAcpiFree].
Proof.
  apply (vmgenid_add_success_state demo_pf_ok demo_boot demo_attached).
  reflexivity.
Defined.

Lemma IS_ERR_errno e : 0 < e <= MAX_ERRNO -> IS_ERR (u64 (- e)) = true.
Proof.
  unfold IS_ERR, u64, MAX_ERRNO. intros He. apply Z.leb_le.
  change (2 ^ 64) with 18446744073709551616.
  Z.div_mod_to_equations. lia.
Qed.

Lemma PTR_ERR_errno e : 0 < e <= MAX_ERRNO -> PTR_ERR (u64 (- e)) = - e.
Proof.
  unfold PTR_ERR, sint, u64, MAX_ERRNO. intros He.
  change (2 ^ 64) with 18446744073709551616.
  change (2 ^ (64 - 1)) with 9223372036854775808.
  change (2 ^ 32) with 4294967296.
  change (2 ^ (32 - 1)) with 2147483648.
  Z.div_mod_to_equations. lia.
Qed.

(** X7. When [devm_memremap] fails with errno [e] (it returns the pointer
    that encodes [-e]), [vmgenid_add] returns [-e]: the mapping's own error
    code reaches the caller.  Nothing was fed to the entropy pool and no
    handler registration was attempted; the ACPI buffer and the state were
    freed. *)
Theorem mapping_errno_propagates pf w e :
  CONFIG_ACPI pf = true ->
  devm_kmalloc_ret pf <> NULL ->
  ACPI_FAILURE (fst (acpi_evaluate_ADDR pf)) = false ->
  two_integers (snd (acpi_evaluate_ADDR pf)) = true ->
  0 < e <= MAX_ERRNO ->
  mapped_at pf = u64 (- e) ->
  exists w',
    vmgenid_add pf w = Some (- e, w') /\
    log w' =
      log w ++
      [EvDevmKmalloc (devm_kmalloc_ret pf);
       EvAcpiEvaluateObject "ADDR" (fst (acpi_evaluate_ADDR pf));
       EvDevmMemremap (descriptor_phys_addr (snd (acpi_evaluate_ADDR pf)))
                      VMGENID_SIZE MEMREMAP_WB;
       EvAcpiFree;
       EvDevmKfree (devm_kmalloc_ret pf)].
Proof.
  intros Hcfg Hp Hok Hshape He Hmap.
  assert (Herr : attach_error_of pf = Some MappingError).
  { unfold attach_error_of. unfold mapped_at in Hmap.
    destruct (acpi_evaluate_ADDR pf) as [status parsed]. cbn [fst snd] in *.
    by rewrite Hok, Hshape, Hmap, IS_ERR_errno. }
  eexists. split.
  - rewrite (vmgenid_add_failed pf w MappingError) by done.
    unfold attach_ret. by rewrite Herr, Hmap, PTR_ERR_errno.
  - cbn [released allocated attach_world logged without_state with_state log].
    unfold attach_events. rewrite Herr. by rewrite <- !app_assoc.
Qed.

Lemma mapping_errno_propagates_witness :
  exists w',
    vmgenid_add demo_pf_nomap demo_boot = Some (- ENOMEM, w') /\
    log w' =
      log demo_boot ++
      [EvDevmKmalloc (devm_kmalloc_ret demo_pf_nomap);
       EvAcpiEvaluateObject "ADDR" (fst (acpi_evaluate_ADDR demo_pf_nomap));
       EvDevmMemremap
         (descriptor_phys_addr (snd (acpi_evaluate_ADDR demo_pf_nomap)))
         VMGENID_SIZE MEMREMAP_WB;
       EvAcpiFree;
       EvDevmKfree (devm_kmalloc_ret demo_pf_nomap)].
Proof.
  apply (mapping_errno_propagates demo_pf_nomap demo_boot ENOMEM).
  - reflexivity.
  - discriminate.
  - reflexivity.
  - reflexivity.
  - unfold ENOMEM, MAX_ERRNO. lia.
  - reflexivity.
Defined.

(** X8. When the notify handler cannot be installed, [vmgenid_add] returns
    [-ENODEV] after the boot seed has already been handed to the entropy
    pool: the seed is the one side effect of a failed attachment that is
    not undone.  The calls made are, in this order: allocate, evaluate,
    map, seed, install (failing), [dev_err], free the ACPI buffer, free the
    state. *)
Theorem registration_failure_trace pf w :
  CONFIG_ACPI pf = true ->
  devm_kmalloc_ret pf <> NULL ->
  attach_error_of pf = Some RegistrationError ->
  exists w',
    vmgenid_add pf w = Some (- ENODEV, w') /\
    log w' =
      log w ++
      [EvDevmKmalloc (devm_kmalloc_ret pf);
       EvAcpiEvaluateObject "ADDR" (fst (acpi_evaluate_ADDR pf));
       EvDevmMemremap (descriptor_phys_addr (snd (acpi_evaluate_ADDR pf)))
                      VMGENID_SIZE MEMREMAP_WB;
       EvAddDeviceRandomness (read_bytes (mem w) (mapped_at pf) VMGENID_SIZE)
                             VMGENID_SIZE;
       EvAcpiInstallNotifyHandler (acpi_install_notify_handler_ret pf);
       EvDevErr "Failed to install acpi notify handler";
       EvAcpiFree;
       EvDevmKfree (devm_kmalloc_ret pf)].
Proof.
  intros Hcfg Hp Herr. eexists. split.
  - rewrite (vmgenid_add_failed pf w RegistrationError) by done.
    unfold attach_ret. by rewrite Herr.
  - cbn [released allocated attach_world logged without_state with_state log
         mem].
    unfold attach_events. rewrite Herr.
    cbn [allocated logged with_state mem]. by rewrite <- !app_assoc.
Qed.

Lemma registration_failure_trace_witness :
  exists w',
    vmgenid_add demo_pf_noreg demo_boot = Some (- ENODEV, w') /\
    log w' =
      log demo_boot ++
      [EvDevmKmalloc (devm_kmalloc_ret demo_pf_noreg);
       EvAcpiEvaluateObject "ADDR" (fst (acpi_evaluate_ADDR demo_pf_noreg));
       EvDevmMemremap
         (descriptor_phys_addr (snd (acpi_evaluate_ADDR demo_pf_noreg)))
         VMGENID_SIZE MEMREMAP_WB;
       EvAddDeviceRandomness
         (read_bytes (mem demo_boot) (mapped_at demo_pf_noreg) VMGENID_SIZE)
         VMGENID_SIZE;
       EvAcpiInstallNotifyHandler
         (acpi_install_notify_handler_ret demo_pf_noreg);
       EvDevErr "Failed to install acpi notify handler";
       EvAcpiFree;
       EvDevmKfree (devm_kmalloc_ret demo_pf_noreg)].
Proof.
  apply (registration_failure_trace demo_pf_noreg demo_boot).
  - reflexivity.
  - discriminate.
  - reflexivity.
Defined.

Lemma count_events_app f l1 l2 :
  count_events f (l1 ++ l2) = (count_events f l1 + count_events f l2)%nat.
Proof. unfold count_events. by rewrite List.filter_app, length_app. Qed.

Lemma vmgenid_add_log pf w :
  CONFIG_ACPI pf = true ->
  devm_kmalloc_ret pf <> NULL ->
  exists r w',
    vmgenid_add pf w = Some (r, w') /\
    log w' =
      log w ++ [EvDevmKmalloc (devm_kmalloc_ret pf)] ++
      attach_events pf (allocated pf w) ++
      match attach_error_of pf with
      | Some _ => [EvDevmKfree (devm_kmalloc_ret pf)]
      | None => []
      end.
Proof.
  intros Hcfg Hp. eexists _, _.
  split; [by apply vmgenid_add_run|]. cbv zeta.
  destruct (attach_error_of pf) as [e|] eqn:Herr.
  - assert (Hret : attach_ret pf <> 0)
      by (intros Hz%attach_ret_zero; congruence).
    apply Z.eqb_neq in Hret. rewrite Hret.
    cbn [released allocated attach_world logged without_state with_state log].
    by rewrite <- !app_assoc.
  - apply attach_ret_zero in Herr. rewrite Herr. cbn [Z.eqb].
    cbn [allocated attach_world logged with_state log].
    by rewrite app_nil_r, <- !app_assoc.
Qed.

(** X9. Once the firmware evaluation has succeeded, [ACPI_FREE] is called
    on its result exactly once, at [out], whichever way the attachment then
    goes (malformed descriptor, failed mapping, failed registration or
    success); when the evaluation itself failed [ACPI_FREE] is not
    called. *)
Theorem acpi_buffer_freed_once pf w :
  CONFIG_ACPI pf = true ->
  devm_kmalloc_ret pf <> NULL ->
  exists r w',
    vmgenid_add pf w = Some (r, w') /\
    count_events is_acpi_free (log w') =
      (count_events is_acpi_free (log w) +
       (if ACPI_FAILURE (fst (acpi_evaluate_ADDR pf)) then 0 else 1))%nat.
Proof.
  intros Hcfg Hp.
  destruct (vmgenid_add_log pf w Hcfg Hp) as (r & w' & Hrun & Hlog).
  exists r, w'. split; [done|]. rewrite Hlog.
  rewrite !count_events_app. unfold attach_events, attach_error_of.
  destruct (acpi_evaluate_ADDR pf) as [status parsed]. cbn [fst snd].
  destruct (ACPI_FAILURE status); [done|].
  destruct (negb (two_integers parsed)); [done|].
  destruct (IS_ERR _); [done|].
  by destruct (ACPI_FAILURE _).
Qed.

Lemma acpi_buffer_freed_once_witness :
  exists r w',
    vmgenid_add demo_pf_single demo_boot = Some (r, w') /\
    count_events is_acpi_free (log w') =
      (count_events is_acpi_free (log demo_boot) +
       (if ACPI_FAILURE (fst (acpi_evaluate_ADDR demo_pf_single))
        then 0 else 1))%nat.
Proof.
  apply (acpi_buffer_freed_once demo_pf_single demo_boot).
  - reflexivity.
  - discriminate.
Defined.

(** X10. Attaching never reports a change: [vmgenid_add] makes no
    [add_vmfork_randomness] call and sends no uevent.  It seeds the entropy
    pool once if the region could be mapped and not at all otherwise, and
    it tries to install the notify handler exactly when it has seeded. *)
Theorem attach_entropy_calls pf w :
  CONFIG_ACPI pf = true ->
  devm_kmalloc_ret pf <> NULL ->
  exists r w',
    vmgenid_add pf w = Some (r, w') /\
    count_events is_reseed (log w') = count_events is_reseed (log w) /\
    count_events is_uevent (log w') = count_events is_uevent (log w) /\
    count_events is_seed (log w') =
      (count_events is_seed (log w) +
       match attach_error_of pf with
       | None | Some RegistrationError => 1
       | _ => 0
       end)%nat /\
    count_events is_install (log w') =
      (count_events is_install (log w) +
       match attach_error_of pf with
       | None | Some RegistrationError => 1
       | _ => 0
       end)%nat.
Proof.
  intros Hcfg Hp.
  destruct (vmgenid_add_log pf w Hcfg Hp) as (r & w' & Hrun & Hlog).
  exists r, w'. split; [done|]. rewrite Hlog.
  rewrite !count_events_app. unfold attach_events.
  destruct (attach_error_of pf) as [[]|]; cbn; repeat split; lia.
Qed.

Lemma attach_entropy_calls_witness :
  exists r w',
    vmgenid_add demo_pf_nomap demo_boot = Some (r, w') /\
    count_events is_reseed (log w') = count_events is_reseed (log demo_boot) /\
    count_events is_uevent (log w') = count_events is_uevent (log demo_boot) /\
    count_events is_seed (log w') =
      (count_events is_seed (log demo_boot) +
       match attach_error_of demo_pf_nomap with
       | None | Some RegistrationError => 1
       | _ => 0
       end)%nat /\
    count_events is_install (log w') =
      (count_events is_install (log demo_boot) +
       match attach_error_of demo_pf_nomap with
       | None | Some RegistrationError => 1
       | _ => 0
       end)%nat.
Proof.
  apply (attach_entropy_calls demo_pf_nomap demo_boot).
  - reflexivity.
  - discriminate.
Defined.

(** X11. Two exits come before any firmware call.  If the allocation fails
    [vmgenid_add] returns [-ENOMEM] at once; if the kernel is built without
    ACPI it returns [-EINVAL] and frees the state it has just allocated,
    whatever the firmware would have answered.  Either way nothing is
    evaluated, mapped or fed to the entropy pool, and [driver_data] and the
    mapped memory are untouched. *)
Theorem vmgenid_add_early_exit pf w :
  devm_kmalloc_ret pf = NULL \/ CONFIG_ACPI pf = false ->
  exists w',
    vmgenid_add pf w =
      Some (if devm_kmalloc_ret pf =? NULL then - ENOMEM else - EINVAL, w') /\
    log w' =
      log w ++
      EvDevmKmalloc (devm_kmalloc_ret pf) ::
      (if devm_kmalloc_ret pf =? NULL then []
       else [EvDevmKfree (devm_kmalloc_ret pf)]) /\
    driver_data w' = driver_data w /\ mem w' = mem w.
Proof.
  intros Hwhy.
  destruct (Z.eqb_spec (devm_kmalloc_ret pf) NULL) as [Hp|Hp].
  - eexists. split; [by apply vmgenid_add_nomem|]. by rewrite Hp.
  - destruct Hwhy as [?|Hcfg]; [done|].
    eexists. split; [by apply vmgenid_add_noacpi|].
    cbn [released allocated logged without_state with_state log driver_data
         mem].
    by rewrite <- app_assoc.
Qed.

Lemma vmgenid_add_early_exit_witness :
  exists w',
    vmgenid_add demo_pf_noacpi demo_boot =
      Some (if devm_kmalloc_ret demo_pf_noacpi =? NULL
            then - ENOMEM else - EINVAL, w') /\
    log w' =
      log demo_boot ++
      EvDevmKmalloc (devm_kmalloc_ret demo_pf_noacpi) ::
      (if devm_kmalloc_ret demo_pf_noacpi =? NULL then []
       else [EvDevmKfree (devm_kmalloc_ret demo_pf_noacpi)]) /\
    driver_data w' = driver_data demo_boot /\ mem w' = mem demo_boot.
Proof.
  apply (vmgenid_add_early_exit demo_pf_noacpi demo_boot).
  right. reflexivity.
Defined.

Lemma allocated_with_junk_without n j pf w :
  without_state (devm_kmalloc_ret pf) (allocated (with_junk n j pf) w) =
  without_state (devm_kmalloc_ret pf) (allocated pf w).
Proof.
  unfold without_state, allocated, logged, with_state.
  cbn [with_junk devm_kmalloc_ret heap driver_data mem log].
  by rewrite !delete_insert_eq.
Qed.

(** X12. What [devm_kmalloc] left in the new object never matters: with
    any other leftovers [vmgenid_add] returns the same value and leaves the
    same world, log included.  Uninitialised memory reaches neither the
    entropy pool nor the first comparison. *)
Theorem kmalloc_junk_never_read pf w n j :
  vmgenid_add (with_junk n j pf) w = vmgenid_add pf w.
Proof.
  destruct (Z.eq_dec (devm_kmalloc_ret pf) NULL) as [Hp|Hp].
  { by rewrite !vmgenid_add_nomem. }
  destruct (CONFIG_ACPI pf) eqn:Hcfg.
  - rewrite !vmgenid_add_run by done. cbv zeta.
    change (attach_ret (with_junk n j pf)) with (attach_ret pf).
    f_equal. f_equal.
    unfold released, attach_world, attach_heap, attach_driver_data,
      attach_events, allocated, logged, with_state, without_state,
      initial_state.
    change (attach_error_of (with_junk n j pf)) with (attach_error_of pf).
    change (mapped_at (with_junk n j pf)) with (mapped_at pf).
    cbn [with_junk devm_kmalloc_ret acpi_evaluate_ADDR
         acpi_install_notify_handler_ret heap driver_data mem log].
    destruct (Z.eqb_spec (attach_ret pf) 0) as [Hz|Hnz].
    + apply attach_ret_zero in Hz. rewrite Hz.
      by rewrite !insert_insert_eq.
    + destruct (attach_error_of pf) as [[]|] eqn:Herr;
        by rewrite ?insert_insert_eq, ?delete_insert_eq.
  - rewrite !vmgenid_add_noacpi by done.
    unfold released. cbn [with_junk devm_kmalloc_ret].
    by rewrite allocated_with_junk_without.
Qed.

Lemma vmgenid_notify_unattached w : monitor w = None -> vmgenid_notify w = None.
Proof.
  unfold monitor, vmgenid_notify, load_state. intros Hm. exec. by rewrite Hm.
Qed.

Lemma vmgenid_add_failure_state pf w r w' :
  devm_kmalloc_ret pf <> NULL ->
  heap w !! devm_kmalloc_ret pf = None ->
  vmgenid_add pf w = Some (r, w') ->
  r <> 0 ->
  heap w' = heap w /\
  (driver_data w' = driver_data w \/ driver_data w' = NULL).
Proof.
  intros Hp Hfresh Hrun Hr.
  destruct (CONFIG_ACPI pf) eqn:Hcfg.
  - rewrite vmgenid_add_run in Hrun by done. cbv zeta in Hrun.
    injection Hrun as <- <-.
    pose proof Hr as Hr'. apply Z.eqb_neq in Hr'. rewrite Hr'.
    split; [by apply released_heap|].
    cbn [released logged without_state attach_world driver_data].
    unfold attach_driver_data.
    destruct (attach_error_of pf) as [[]|] eqn:Herr; auto.
    by apply attach_ret_zero in Herr.
  - rewrite vmgenid_add_noacpi in Hrun by done.
    injection Hrun as <- <-.
    cbn [released allocated logged without_state with_state heap
         driver_data].
    rewrite delete_insert_eq, delete_id by done. auto.
Qed.

(** X13. A failed attachment leaves the device without a monitor: if
    [driver_data] designated no live state before the call (and nothing
    lives at address 0), it designates none afterwards.  [vmgenid_notify]
    has no guard for that case: run in such a world it dereferences a
    pointer to nothing. *)
Theorem failed_attach_leaves_no_monitor pf w r w' :
  devm_kmalloc_ret pf <> NULL ->
  heap w !! devm_kmalloc_ret pf = None ->
  monitor w = None ->
  heap w !! NULL = None ->
  vmgenid_add pf w = Some (r, w') ->
  r <> 0 ->
  monitor w' = None /\ vmgenid_notify w' = None.
Proof.
  intros Hp Hfresh Hmon Hnull Hrun Hr.
  destruct (vmgenid_add_failure_state pf w r w' Hp Hfresh Hrun Hr)
    as (Hheap & Hdd).
  assert (Hm' : monitor w' = None).
  { unfold monitor in *. rewrite Hheap. by destruct Hdd as [-> | ->]. }
  split; [done | by apply vmgenid_notify_unattached].
Qed.

Lemma failed_attach_leaves_no_monitor_witness :
  monitor demo_unregistered = None /\ vmgenid_notify demo_unregistered = None.
Proof.
  apply (failed_attach_leaves_no_monitor demo_pf_noreg demo_boot (- ENODEV)
           demo_unregistered).
  - discriminate.
  - reflexivity.
  - reflexivity.
  - reflexivity.
  - reflexivity.
  - discriminate.
Defined.

Lemma attach_world_monitor pf w :
  attach_error_of pf = None ->
  monitor (attach_world pf (devm_kmalloc_ret pf) (allocated pf w)) =
    Some (initial_state w (mapped_at pf)).
Proof.
  intros Herr. unfold monitor.
  cbn [attach_world heap driver_data].
  unfold attach_heap, attach_driver_data. rewrite Herr.
  apply lookup_insert_eq.
Qed.

(** X14. The snapshot taken at attachment is the baseline of the first
    notification: after a successful [vmgenid_add], a notification that
    finds the region as it was at attachment is [Unchanged] and adds
    nothing to the log, and one that finds anything else is [Changed], with
    one forced reseed and one uevent for the value found. *)
Theorem first_signal_after_attach pf w w1 m :
  vmgenid_add pf w = Some (0, w1) ->
  exists w2,
    signal m w1 =
      Some (if bool_decide (read_bytes m (mapped_at pf) VMGENID_SIZE =
                            read_bytes (mem w) (mapped_at pf) VMGENID_SIZE)
            then Unchanged else Changed, w2) /\
    log w2 =
      log w1 ++
      (if bool_decide (read_bytes m (mapped_at pf) VMGENID_SIZE =
                       read_bytes (mem w) (mapped_at pf) VMGENID_SIZE)
       then []
       else change_events (read_bytes m (mapped_at pf) VMGENID_SIZE)) /\
    monitor w2 =
      Some {| next_id := mapped_at pf;
              this_id := read_bytes m (mapped_at pf) VMGENID_SIZE |}.
Proof.
  intros (Hp & Hcfg & Herr & ->)%vmgenid_add_attached.
  pose proof (attach_world_monitor pf w Herr) as Hm.
  destruct (signal_run m _ _ Hm (length_read_bytes _ _ _))
    as (c & Hiff & Hrun).
  cbv zeta in Hrun. cbn [initial_state next_id this_id] in Hrun, Hiff.
  eexists. split; [|split].
  - rewrite Hrun. do 2 f_equal.
    destruct (Z.eqb_spec c 0) as [E|E]; case_bool_decide as Hd; try done.
    + exfalso. apply Hd. symmetry. by apply Hiff.
    + exfalso. apply E. by apply Hiff.
  - cbn [log]. f_equal.
    destruct (Z.eqb_spec c 0) as [E|E]; case_bool_decide as Hd; try done.
    + exfalso. apply Hd. symmetry. by apply Hiff.
    + exfalso. apply E. by apply Hiff.
  - unfold monitor. cbn [heap driver_data]. apply lookup_insert_eq.
Qed.

Lemma first_signal_after_attach_witness :
  exists w2,
    signal demo_mem_pattern demo_attached =
      Some (if bool_decide
                 (read_bytes demo_mem_pattern (mapped_at demo_pf_ok)
                             VMGENID_SIZE =
                  read_bytes (mem demo_boot) (mapped_at demo_pf_ok)
                             VMGENID_SIZE)
            then Unchanged else Changed, w2) /\
    log w2 =
      log demo_attached ++
      (if bool_decide
            (read_bytes demo_mem_pattern (mapped_at demo_pf_ok) VMGENID_SIZE =
             read_bytes (mem demo_boot) (mapped_at demo_pf_ok) VMGENID_SIZE)
       then []
       else change_events
              (read_bytes demo_mem_pattern (mapped_at demo_pf_ok)
                          VMGENID_SIZE)) /\
    monitor w2 =
      Some {| next_id := mapped_at demo_pf_ok;
              this_id := read_bytes demo_mem_pattern (mapped_at demo_pf_ok)
                                    VMGENID_SIZE |}.
Proof.
  apply (first_signal_after_attach demo_pf_ok demo_boot demo_attached
           demo_mem_pattern).
  reflexivity.
Defined.

(** * Further properties of the change detection *)

(** X15. A notification touches one thing only, the snapshot of the
    attached monitor: [driver_data], the mapped memory, the monitor's
    [next_id] and every other heap object are as before, and the only calls
    it can add to the log are the forced reseed and the uevent.  It never
    maps, unmaps or frees anything. *)
Theorem notify_frame w st :
  monitor w = Some st ->
  length (this_id st) = VMGENID_SIZE ->
  exists o w' st' es,
    vmgenid_notify w = Some (o, w') /\
    driver_data w' = driver_data w /\
    mem w' = mem w /\
    (forall q, q <> driver_data w -> heap w' !! q = heap w !! q) /\
    monitor w' = Some st' /\
    next_id st' = next_id st /\
    length (this_id st') = VMGENID_SIZE /\
    log w' = log w ++ es /\
    Forall (fun e => is_reseed e || is_uevent e = true) es.
Proof.
  intros Hm Hlen.
  destruct (vmgenid_notify_run w st Hm Hlen) as (c & _ & _ & Hrun).
  eexists _, _, _, _. split; [exact Hrun|].
  split; [done|]. split; [done|]. split.
  { intros q Hq. apply not_eq_sym in Hq. cbn [heap].
    by rewrite lookup_insert_ne. }
  split; [apply lookup_insert_eq|]. split; [done|].
  split; [apply length_read_bytes|]. split; [done|].
  destruct (c =? 0); by repeat constructor.
Qed.

Lemma notify_frame_witness :
  exists o w' st' es,
    vmgenid_notify (host_rewrite demo_mem_pattern demo_attached) =
      Some (o, w') /\
    driver_data w' = driver_data (host_rewrite demo_mem_pattern demo_attached) /\
    mem w' = mem (host_rewrite demo_mem_pattern demo_attached) /\
    (forall q,
       q <> driver_data (host_rewrite demo_mem_pattern demo_attached) ->
       heap w' !! q =
         heap (host_rewrite demo_mem_pattern demo_attached) !! q) /\
    monitor w' = Some st' /\
    next_id st' = next_id demo_state /\
    length (this_id st') = VMGENID_SIZE /\
    log w' = log (host_rewrite demo_mem_pattern demo_attached) ++ es /\
    Forall (fun e => is_reseed e || is_uevent e = true) es.
Proof.
  apply (notify_frame (host_rewrite demo_mem_pattern demo_attached)
           demo_state).
  - reflexivity.
  - reflexivity.
Defined.

Lemma last_cons {A} (a d : A) l : List.last (a :: l) d = List.last l a.
Proof.
  revert a d. induction l as [|b l IH]; intros a d; [done|].
  change (List.last (a :: b :: l) d) with (List.last (b :: l) d).
  by rewrite !IH.
Qed.

Lemma signals_run ms : forall w st,
  monitor w = Some st ->
  length (this_id st) = VMGENID_SIZE ->
  exists w',
    signals ms w =
      Some (expected_outcomes (this_id st) (region_reads (next_id st) ms),
            w') /\
    log w' =
      log w ++ expected_events (this_id st) (region_reads (next_id st) ms) /\
    monitor w' =
      Some {| next_id := next_id st;
              this_id := List.last (region_reads (next_id st) ms)
                                   (this_id st) |} /\
    driver_data w' = driver_data w /\
    (forall q, q <> driver_data w -> heap w' !! q = heap w !! q).
Proof.
  induction ms as [|m ms IH]; intros w st Hm Hlen.
  - exists w. cbn. rewrite app_nil_r. split; [done|]. split; [done|].
    split; [by destruct st | done].
  - destruct (signal_run m w st Hm Hlen) as (c & Hiff & Hrun).
    cbv zeta in Hrun.
    set (id := read_bytes m (next_id st) VMGENID_SIZE) in *.
    set (st1 := {| next_id := next_id st; this_id := id |}) in *.
    match type of Hrun with _ = Some (_, ?x) => set (w1 := x) in * end.
    assert (Hm1 : monitor w1 = Some st1) by apply lookup_insert_eq.
    destruct (IH w1 st1 Hm1 (length_read_bytes _ _ _))
      as (w' & Hrest & Hlog & Hmon & Hdd & Hframe).
    exists w'.
    assert (Hc : (c =? 0) = bool_decide (id = this_id st)).
    { destruct (Z.eqb_spec c 0) as [E|E]; case_bool_decide as Hd; try done.
      - exfalso. apply Hd. symmetry. by apply Hiff.
      - exfalso. apply E. by apply Hiff. }
    cbn [region_reads map expected_outcomes expected_events].
    fold (region_reads (next_id st) ms). fold id.
    split; [|split; [|split; [|split]]].
    + cbn [signals]. unfold mbind, M_bind. rewrite Hrun, Hrest.
      cbn [this_id next_id st1]. by rewrite Hc.
    + rewrite Hlog. cbn [log w1 this_id next_id st1].
      by rewrite Hc, <- app_assoc.
    + rewrite Hmon. cbn [this_id next_id st1]. by rewrite last_cons.
    + by rewrite Hdd.
    + intros q Hq. rewrite Hframe by done. cbn [heap w1].
      apply not_eq_sym in Hq. by rewrite lookup_insert_ne.
Qed.

(** X16. Any run of notifications is decided by the values found in the
    region, each compared with the one found before it and the first with
    the snapshot: the outcomes and the calls logged are those of that
    pairwise comparison, the snapshot ends as the last value found, and no
    other heap object changes.  Only the contents of the region at the
    moment of a notification count. *)
Theorem signals_outcomes w st (ms : list (Z -> byte)) :
  monitor w = Some st ->
  length (this_id st) = VMGENID_SIZE ->
  exists w',
    signals ms w =
      Some (expected_outcomes (this_id st) (region_reads (next_id st) ms),
            w') /\
    log w' =
      log w ++ expected_events (this_id st) (region_reads (next_id st) ms) /\
    monitor w' =
      Some {| next_id := next_id st;
              this_id := List.last (region_reads (next_id st) ms)
                                   (this_id st) |} /\
    driver_data w' = driver_data w /\
    (forall q, q <> driver_data w -> heap w' !! q = heap w !! q).
Proof. intros Hm Hlen. by apply signals_run. Qed.

Lemma signals_outcomes_witness :
  exists w',
    signals [demo_mem_pattern; demo_mem_pattern; demo_mem_zero] demo_attached =
      Some (expected_outcomes (this_id demo_state)
              (region_reads (next_id demo_state)
                 [demo_mem_pattern; demo_mem_pattern; demo_mem_zero]),
            w') /\
    log w' =
      log demo_attached ++
      expected_events (this_id demo_state)
        (region_reads (next_id demo_state)
           [demo_mem_pattern; demo_mem_pattern; demo_mem_zero]) /\
    monitor w' =
      Some {| next_id := next_id demo_state;
              this_id :=
                List.last
                  (region_reads (next_id demo_state)
                     [demo_mem_pattern; demo_mem_pattern; demo_mem_zero])
                  (this_id demo_state) |} /\
    driver_data w' = driver_data demo_attached /\
    (forall q, q <> driver_data demo_attached ->
               heap w' !! q = heap demo_attached !! q).
Proof.
  apply (signals_outcomes demo_attached demo_state
           [demo_mem_pattern; demo_mem_pattern; demo_mem_zero]).
  - reflexivity.
  - reflexivity.
Defined.

Lemma expected_counts reads : forall prev,
  length (expected_outcomes prev reads) = length reads /\
  count_events is_reseed (expected_events prev reads) =
    count_changed (expected_outcomes prev reads) /\
  count_events is_uevent (expected_events prev reads) =
    count_changed (expected_outcomes prev reads) /\
  count_events is_seed (expected_events prev reads) = 0%nat.
Proof.
  induction reads as [|id reads IH]; intros prev; [done|].
  destruct (IH id) as (Hlen & Hre & Hue & Hse).
  cbn [expected_outcomes expected_events length].
  rewrite !count_events_app, Hre, Hue, Hse, Hlen.
  by case_bool_decide.
Qed.

(** X17. Over any run of notifications the number of forced reseeds and the
    number of uevents both equal the number of [Changed] outcomes: one of
    each per detected change, none otherwise.  There is one outcome per
    notification, and notifications never seed with
    [add_device_randomness]. *)
Theorem reseeds_match_changes w st (ms : list (Z -> byte)) :
  monitor w = Some st ->
  length (this_id st) = VMGENID_SIZE ->
  exists os w',
    signals ms w = Some (os, w') /\
    length os = length ms /\
    count_events is_reseed (log w') =
      (count_events is_reseed (log w) + count_changed os)%nat /\
    count_events is_uevent (log w') =
      (count_events is_uevent (log w) + count_changed os)%nat /\
    count_events is_seed (log w') = count_events is_seed (log w).
Proof.
  intros Hm Hlen.
  destruct (signals_run ms w st Hm Hlen) as (w' & Hrun & Hlog & _).
  destruct (expected_counts (region_reads (next_id st) ms) (this_id st))
    as (Hn & Hre & Hue & Hse).
  eexists _, w'. split; [exact Hrun|].
  rewrite Hlog, !count_events_app, Hre, Hue, Hse, Hn.
  unfold region_reads. rewrite length_map. repeat split; lia.
Qed.

Lemma reseeds_match_changes_witness :
  exists os w',
    signals [demo_mem_pattern; demo_mem_pattern; demo_mem_zero] demo_attached =
      Some (os, w') /\
    length os =
      length [demo_mem_pattern; demo_mem_pattern; demo_mem_zero] /\
    count_events is_reseed (log w') =
      (count_events is_reseed (log demo_attached) + count_changed os)%nat /\
    count_events is_uevent (log w') =
      (count_events is_uevent (log demo_attached) + count_changed os)%nat /\
    count_events is_seed (log w') = count_events is_seed (log demo_attached).
Proof.
  apply (reseeds_match_changes demo_attached demo_state
           [demo_mem_pattern; demo_mem_pattern; demo_mem_zero]).
  - reflexivity.
  - reflexivity.
Defined.

(** X18. The monitor keeps no history beyond the last value: when the
    region goes to a new value and then back to the old one, with a
    notification after each step, both notifications are [Changed], the old
    value is injected again as a forced reseed, and the monitor state ends
    exactly as it began. *)
Theorem flip_back_reported w st mB mA :
  monitor w = Some st ->
  length (this_id st) = VMGENID_SIZE ->
  read_bytes mB (next_id st) VMGENID_SIZE <> this_id st ->
  read_bytes mA (next_id st) VMGENID_SIZE = this_id st ->
  exists w',
    signals [mB; mA] w = Some ([Changed; Changed], w') /\
    log w' =
      log w ++
      change_events (read_bytes mB (next_id st) VMGENID_SIZE) ++
      change_events (this_id st) /\
    monitor w' = Some st.
Proof.
  intros Hm Hlen HB HA.
  destruct (signals_run [mB; mA] w st Hm Hlen)
    as (w' & Hrun & Hlog & Hmon & _).
  cbn [region_reads map expected_outcomes expected_events List.last]
    in Hrun, Hlog, Hmon.
  rewrite HA in Hrun, Hlog, Hmon.
  rewrite !bool_decide_eq_false_2 in Hrun, Hlog by congruence.
  exists w'. split; [done|]. split.
  - rewrite Hlog. by rewrite app_nil_r.
  - rewrite Hmon. by destruct st.
Qed.

Lemma flip_back_reported_witness :
  exists w',
    signals [demo_mem_pattern; demo_mem_zero] demo_attached =
      Some ([Changed; Changed], w') /\
    log w' =
      log demo_attached ++
      change_events (read_bytes demo_mem_pattern (next_id demo_state)
                                VMGENID_SIZE) ++
      change_events (this_id demo_state) /\
    monitor w' = Some demo_state.
Proof.
  apply (flip_back_reported demo_attached demo_state demo_mem_pattern
           demo_mem_zero).
  - reflexivity.
  - reflexivity.
  - vm_compute. discriminate.
  - reflexivity.
Defined.

Lemma read_bytes_ext m1 m2 p n :
  (forall i, 0 <= i < Z.of_nat n -> m1 (p + i) = m2 (p + i)) ->
  read_bytes m1 p n = read_bytes m2 p n.
Proof.
  intros Hagree. unfold read_bytes. apply List.map_ext_in.
  intros i Hi%List.in_seq. apply Hagree. lia.
Qed.

(** X19. A notification reads the 16 bytes at [next_id] and nothing else:
    two memories that agree on those 16 bytes give the same outcome, the
    same heap and the same log, whatever they hold elsewhere. *)
Theorem notify_reads_only_region w st m1 m2 :
  monitor w = Some st ->
  length (this_id st) = VMGENID_SIZE ->
  (forall i, 0 <= i < 16 -> m1 (next_id st + i) = m2 (next_id st + i)) ->
  exists o w1 w2,
    signal m1 w = Some (o, w1) /\
    signal m2 w = Some (o, w2) /\
    heap w1 = heap w2 /\
    driver_data w1 = driver_data w2 /\
    log w1 = log w2.
Proof.
  intros Hm Hlen Hagree.
  assert (Hread : read_bytes m1 (next_id st) VMGENID_SIZE =
                  read_bytes m2 (next_id st) VMGENID_SIZE)
    by (by apply read_bytes_ext).
  destruct (signal_run m1 w st Hm Hlen) as (c1 & Hiff1 & Hrun1).
  destruct (signal_run m2 w st Hm Hlen) as (c2 & Hiff2 & Hrun2).
  cbv zeta in *. rewrite <- Hread in Hiff2, Hrun2.
  assert (Hc : (c1 =? 0) = (c2 =? 0)).
  { destruct (Z.eqb_spec c1 0) as [E1|E1], (Z.eqb_spec c2 0) as [E2|E2];
      try done; exfalso.
    - apply E2, Hiff2. by apply Hiff1.
    - apply E1, Hiff1. by apply Hiff2. }
  rewrite <- Hc in Hrun2.
  eexists _, _, _. split; [exact Hrun1|]. split; [exact Hrun2|]. done.
Qed.

Lemma notify_reads_only_region_witness :
  exists o w1 w2,
    signal demo_mem_pattern demo_attached = Some (o, w1) /\
    signal (fun a => if a <? 8192 then x00 else xa5) demo_attached =
      Some (o, w2) /\
    heap w1 = heap w2 /\
    driver_data w1 = driver_data w2 /\
    log w1 = log w2.
Proof.
  apply (notify_reads_only_region demo_attached demo_state demo_mem_pattern
           (fun a => if a <? 8192 then x00 else xa5)).
  - reflexivity.
  - reflexivity.
  - intros i Hi. cbn [demo_state next_id demo_mem_pattern].
    destruct (Z.ltb_spec (8192 + i) 8192); [lia | reflexivity].
Defined.
